(** * lunar-trader-hub: the store-side policy layer, the registration trigger
      and the commission workflow, as a shallow embedding.

    Sources embedded here:
    - [supabase/migrations/20250820143824_*.sql]: the schema, the row-level
      security (RLS) policies, [has_role], [handle_new_user] and the trigger
      [on_auth_user_created] (the second migration re-creates [has_role] and
      [handle_new_user] with the same bodies);
    - [src/components/Navigation.tsx], the component [MT5AccountForm]
      ([handleSubmit]);
    - [src/pages/Admin.tsx] ([updateMT5Account], [updateSettings], the two
      milestone checkboxes and the badge);
    - [src/pages/Dashboard.tsx] ([fetchData], [totalBalance], [totalProfit],
      the badge).

    Conventions of the embedding:
    - a table is the list of its rows, in insertion order;
    - a UUID is the string the client sees ([id: string] in the TypeScript
      interfaces); the values produced by [gen_random_uuid()] are inputs of
      the operations that insert rows;
    - a [DECIMAL(10,2)] amount is the integer number of hundredths it
      stores, a nullable column is an [option];
    - the timestamp columns ([created_at], [updated_at]) are not fields of
      the rows; where a statement reads [updated_at] of [mt5_accounts], the
      column and the trigger that refreshes it are held beside the table
      ([updated_at_after_update]);
    - the account form is given twice: on amounts in whole hundredths
      ([handleSubmit], which the requests use) and on the number
      [parseFloat] returns ([handleSubmit_number]);
    - [auth.uid()] is [None] for an anonymous request, and a comparison with
      SQL NULL is not true. *)

From stdpp Require Import base option list strings gmap.
From Stdlib Require Import ZArith QArith Lia.

Local Open Scope Z_scope.

Abbreviation UUID := string (only parsing).

(** ** Schema *)

(** [CREATE TYPE public.app_role AS ENUM ('admin', 'user')] *)
Inductive app_role := admin | user.

#[global] Instance app_role_eq_dec : EqDecision app_role.
Proof. solve_decision. Defined.

(** A value of the JSON object [raw_user_meta_data]: JSON null, a JSON
    string, or any other JSON value, kept as its text. *)
Inductive json := JNull | JString (s : string) | JOther (text : string).

(** [auth.users], as far as the trigger reads it. *)
Module AuthUser.
Record row := mk {
  id : UUID;
  raw_user_meta_data : option (gmap string json)
}.
End AuthUser.

(** [public.profiles] *)
Module Profile.
Record row := mk {
  id : UUID;
  user_id : UUID;
  full_name : string;
  telegram_handle : string
}.
End Profile.

(** [public.mt5_accounts] *)
Module MT5Account.
Record row := mk {
  id : UUID;
  user_id : UUID;
  account_id : string;
  password : string;
  server : string;
  initial_deposit : option Z;
  current_balance : option Z;
  profit_target_reached : bool;
  commission_paid : bool
}.
End MT5Account.

(** [public.user_roles] *)
Module UserRole.
Record row := mk {
  id : UUID;
  user_id : UUID;
  role : app_role
}.
End UserRole.

(** [public.admin_settings] *)
Module AdminSettings.
Record row := mk {
  id : UUID;
  fbs_partner_link : option string;
  usdt_wallet_address : option string;
  telegram_bot_username : option string
}.
End AdminSettings.

Record Database := mkDatabase {
  auth_users : list AuthUser.row;
  profiles : list Profile.row;
  mt5_accounts : list MT5Account.row;
  user_roles : list UserRole.row;
  admin_settings : list AdminSettings.row
}.

(** ** Errors and transactions *)

(** The error codes the store and the REST layer answer with. *)
Inductive pg_error :=
| insufficient_privilege      (* 42501: new row violates row-level security policy *)
| not_null_violation          (* 23502 *)
| foreign_key_violation       (* 23503 *)
| unique_violation            (* 23505 *)
| numeric_value_out_of_range  (* 22003 *)
| PGRST116.                   (* .single(): the result is not exactly one row *)

Inductive result (A : Type) :=
| Ok (a : A)
| Err (e : pg_error).
Arguments Ok {A} a.
Arguments Err {A} e.

(** A statement (with the triggers it fires) runs inside one transaction:
    it either yields a value and a new database, or an error. *)
Definition Tx (A : Type) : Type := Database → result (A * Database).

Definition tx_ret {A} (a : A) : Tx A := λ db, Ok (a, db).

Definition tx_bind {A B} (m : Tx A) (k : A → Tx B) : Tx B :=
  λ db, match m db with
        | Ok (a, db') => k a db'
        | Err e => Err e
        end.

Definition tx_fail {A} (e : pg_error) : Tx A := λ _, Err e.

Definition tx_get : Tx Database := λ db, Ok (db, db).

Definition tx_put (db' : Database) : Tx unit := λ _, Ok (tt, db').

Definition tx_guard (b : bool) (e : pg_error) : Tx unit :=
  if b then tx_ret tt else tx_fail e.

Notation "'let!' x ':=' m 'in' k" := (tx_bind m (λ x, k))
  (at level 10, x name, m at level 100, k at level 200, only parsing).
Notation "'do!' m 'in' k" := (tx_bind m (λ _, k))
  (at level 10, m at level 100, k at level 200, only parsing).

(** What the caller gets back: the value or the error, and the database
    after the request. A failed transaction is rolled back. *)
Definition run {A} (m : Tx A) (db : Database) : result A * Database :=
  match m db with
  | Ok (a, db') => (Ok a, db')
  | Err e => (Err e, db)
  end.

(** ** The role test

    [has_role(_user_id, _role)]:
    [SELECT EXISTS (SELECT 1 FROM user_roles WHERE user_id = _user_id AND role = _role)] *)
Definition sql_eq_uuid (a : option UUID) (b : UUID) : bool :=
  match a with
  | Some x => bool_decide (x = b)
  | None => false
  end.

Definition has_role (db : Database) (_user_id : option UUID) (_role : app_role) : bool :=
  existsb (λ r, sql_eq_uuid _user_id (UserRole.user_id r)
                && bool_decide (UserRole.role r = _role))
          (user_roles db).

(** ** Row-level security *)

Inductive command := SELECT | INSERT | UPDATE | DELETE.

Definition command_eqb (a b : command) : bool :=
  match a, b with
  | SELECT, SELECT | INSERT, INSERT | UPDATE, UPDATE | DELETE, DELETE => true
  | _, _ => false
  end.

Inductive policy_for := FOR_ALL | FOR (c : command).

(** A policy predicate sees the database, [auth.uid()] and the row. *)
Definition predicate (Row : Type) : Type := Database → option UUID → Row → bool.

(** [CREATE POLICY name ON table FOR cmd USING (...) WITH CHECK (...)] *)
Record policy (Row : Type) := mkPolicy {
  policy_name : string;
  policy_cmd : policy_for;
  USING : option (predicate Row);
  WITH_CHECK : option (predicate Row)
}.
Arguments mkPolicy {Row}.
Arguments policy_name {Row}.
Arguments policy_cmd {Row}.
Arguments USING {Row}.
Arguments WITH_CHECK {Row}.

Definition profiles_policies : list (policy Profile.row) := [
  mkPolicy "Users can view their own profile" (FOR SELECT)
    (Some (λ _ uid r, sql_eq_uuid uid (Profile.user_id r))) None;
  mkPolicy "Users can insert their own profile" (FOR INSERT)
    None (Some (λ _ uid r, sql_eq_uuid uid (Profile.user_id r)));
  mkPolicy "Users can update their own profile" (FOR UPDATE)
    (Some (λ _ uid r, sql_eq_uuid uid (Profile.user_id r))) None;
  mkPolicy "Admins can view all profiles" FOR_ALL
    (Some (λ db uid _, has_role db uid admin)) None
].

Definition mt5_accounts_policies : list (policy MT5Account.row) := [
  mkPolicy "Admins can manage all MT5 accounts" FOR_ALL
    (Some (λ db uid _, has_role db uid admin)) None;
  mkPolicy "Users can insert their own MT5 account" (FOR INSERT)
    None (Some (λ _ uid r, sql_eq_uuid uid (MT5Account.user_id r)))
].

Definition user_roles_policies : list (policy UserRole.row) := [
  mkPolicy "Admins can manage user roles" FOR_ALL
    (Some (λ db uid _, has_role db uid admin)) None
].

Definition admin_settings_policies : list (policy AdminSettings.row) := [
  mkPolicy "Admins can manage settings" FOR_ALL
    (Some (λ db uid _, has_role db uid admin)) None;
  mkPolicy "Everyone can view admin settings" (FOR SELECT)
    (Some (λ _ _ _, true)) None
].

(** *** The evaluator

    Every table has row-level security enabled and every policy is
    permissive: the applicable policies are combined with OR, and with no
    applicable policy the answer is no. *)
Section Evaluator.
Context {Row : Type}.

Definition applies_to (c : command) (p : policy Row) : bool :=
  match policy_cmd p with
  | FOR_ALL => true
  | FOR c' => command_eqb c' c
  end.

(** The USING expression of a policy; a policy without one (FOR INSERT)
    hides nothing. *)
Definition using_expr (p : policy Row) : predicate Row :=
  match USING p with
  | Some e => e
  | None => λ _ _ _, true
  end.

(** The WITH CHECK expression of a policy; the USING expression stands in
    when it is omitted. *)
Definition check_expr (p : policy Row) : predicate Row :=
  match WITH_CHECK p with
  | Some e => e
  | None => using_expr p
  end.

(** An existing row passes the USING expressions for command [c]. *)
Definition rls_using (ps : list (policy Row)) (c : command)
    (db : Database) (uid : option UUID) (r : Row) : bool :=
  existsb (λ p, using_expr p db uid r) (List.filter (applies_to c) ps).

(** A new row passes the WITH CHECK expressions for command [c]. *)
Definition rls_check (ps : list (policy Row)) (c : command)
    (db : Database) (uid : option UUID) (r : Row) : bool :=
  existsb (λ p, check_expr p db uid r) (List.filter (applies_to c) ps).

(** SELECT: the rows that do not pass are left out, without an error. *)
Definition rls_select (ps : list (policy Row)) (db : Database)
    (uid : option UUID) (rows : list Row) : list Row :=
  List.filter (rls_using ps SELECT db uid) rows.

End Evaluator.

(** ** Reads *)

(** [supabase.from('mt5_accounts').select('*')] (Admin.fetchData; the
    ordering by [created_at] is not modelled). *)
Definition select_mt5_accounts (uid : option UUID) : Tx (list MT5Account.row) :=
  let! db := tx_get in
  tx_ret (rls_select mt5_accounts_policies db uid (mt5_accounts db)).

(** [supabase.from('mt5_accounts').select('*').eq('user_id', user?.id)]
    (Dashboard.fetchData). *)
Definition select_mt5_accounts_eq_user_id (uid : option UUID) (user_id : option UUID)
  : Tx (list MT5Account.row) :=
  let! rows := select_mt5_accounts uid in
  tx_ret (List.filter (λ r, sql_eq_uuid user_id (MT5Account.user_id r)) rows).

(** [.single()]: exactly one row, otherwise the error PGRST116. *)
Definition single {A} (rows : list A) : result A :=
  match rows with
  | [r] => Ok r
  | _ => Err PGRST116
  end.

(** [supabase.from('admin_settings').select(...)]: the rows the caller may
    see. *)
Definition select_admin_settings (uid : option UUID) : Tx (list AdminSettings.row) :=
  let! db := tx_get in
  tx_ret (rls_select admin_settings_policies db uid (admin_settings db)).

(** [supabase.from('admin_settings').select('usdt_wallet_address').single()]
    (Dashboard.fetchData): [settingsData] is the column of the single row,
    [null] with [settingsError] when there is not exactly one. *)
Definition fetch_usdt_wallet_address (uid : option UUID) : Tx (result (option string)) :=
  let! rows := select_admin_settings uid in
  tx_ret (match single rows with
          | Ok r => Ok (AdminSettings.usdt_wallet_address r)
          | Err e => Err e
          end).

(** [supabase.from('profiles').select('*').eq('user_id', user?.id)]
    (Dashboard.fetchData, before [.single()]). *)
Definition select_profiles_eq_user_id (uid : option UUID) (user_id : option UUID)
  : Tx (list Profile.row) :=
  let! db := tx_get in
  tx_ret (List.filter (λ r, sql_eq_uuid user_id (Profile.user_id r))
                 (rls_select profiles_policies db uid (profiles db))).

(** ** Writes *)

Definition set_auth_users (l : list AuthUser.row) (db : Database) : Database :=
  mkDatabase l (profiles db) (mt5_accounts db) (user_roles db) (admin_settings db).
Definition set_profiles (l : list Profile.row) (db : Database) : Database :=
  mkDatabase (auth_users db) l (mt5_accounts db) (user_roles db) (admin_settings db).
Definition set_mt5_accounts (l : list MT5Account.row) (db : Database) : Database :=
  mkDatabase (auth_users db) (profiles db) l (user_roles db) (admin_settings db).
Definition set_user_roles (l : list UserRole.row) (db : Database) : Database :=
  mkDatabase (auth_users db) (profiles db) (mt5_accounts db) l (admin_settings db).
Definition set_admin_settings (l : list AdminSettings.row) (db : Database) : Database :=
  mkDatabase (auth_users db) (profiles db) (mt5_accounts db) (user_roles db) l.

(** [x] occurs among the keys [f r] of the rows. *)
Definition key_in {A} (f : A → UUID) (x : UUID) (rows : list A) : bool :=
  existsb (λ r, bool_decide (f r = x)) rows.
Arguments key_in {A} f x rows : simpl never.

(** No key occurs twice (PRIMARY KEY, UNIQUE). *)
Fixpoint keys_unique {A} (f : A → UUID) (rows : list A) : bool :=
  match rows with
  | [] => true
  | r :: rest => negb (key_in f (f r) rest) && keys_unique f rest
  end.

(** A [DECIMAL(10,2)] column holds fewer than 8 digits before the point. *)
Definition in_decimal_10_2 (x : option Z) : bool :=
  match x with
  | None => true
  | Some v => bool_decide (-10000000000 < v < 10000000000)
  end.

(** *** Trading Accounts *)

(** [INSERT INTO mt5_accounts] of one row under the policies: the value is
    coerced to the column type, then the WITH CHECK expressions are
    evaluated, then the keys. *)
Definition insert_mt5_account (uid : option UUID) (r : MT5Account.row) : Tx unit :=
  let! db := tx_get in
  do! tx_guard (in_decimal_10_2 (MT5Account.initial_deposit r)
                && in_decimal_10_2 (MT5Account.current_balance r))
               numeric_value_out_of_range in
  do! tx_guard (rls_check mt5_accounts_policies INSERT db uid r)
               insufficient_privilege in
  do! tx_guard (negb (key_in MT5Account.id (MT5Account.id r) (mt5_accounts db)))
               unique_violation in
  do! tx_guard (key_in AuthUser.id (MT5Account.user_id r) (auth_users db))
               foreign_key_violation in
  tx_put (set_mt5_accounts (mt5_accounts db ++ [r]) db).

(** [Partial<MT5Account>] of Admin.tsx (without [created_at]). *)
Module PartialMT5Account.
Record t := mk {
  id : option UUID;
  user_id : option UUID;
  account_id : option string;
  password : option string;
  server : option string;
  initial_deposit : option Z;
  current_balance : option Z;
  profit_target_reached : option bool;
  commission_paid : option bool
}.
Definition empty : t := mk None None None None None None None None None.
End PartialMT5Account.

(** The SET clause: a column present in [updates] gets its value. *)
Definition apply_updates (updates : PartialMT5Account.t) (r : MT5Account.row)
  : MT5Account.row :=
  MT5Account.mk
    (default (MT5Account.id r) (PartialMT5Account.id updates))
    (default (MT5Account.user_id r) (PartialMT5Account.user_id updates))
    (default (MT5Account.account_id r) (PartialMT5Account.account_id updates))
    (default (MT5Account.password r) (PartialMT5Account.password updates))
    (default (MT5Account.server r) (PartialMT5Account.server updates))
    (match PartialMT5Account.initial_deposit updates with
     | Some v => Some v
     | None => MT5Account.initial_deposit r
     end)
    (match PartialMT5Account.current_balance updates with
     | Some v => Some v
     | None => MT5Account.current_balance r
     end)
    (default (MT5Account.profit_target_reached r)
             (PartialMT5Account.profit_target_reached updates))
    (default (MT5Account.commission_paid r)
             (PartialMT5Account.commission_paid updates)).

(** The rows an [UPDATE ... WHERE id = accountId] issued by [uid] acts on:
    the WHERE clause reads the row, so the row has to pass the USING
    expressions for SELECT and for UPDATE. The other rows are skipped
    without an error. *)
Definition update_target (db : Database) (uid : option UUID) (accountId : UUID)
    (r : MT5Account.row) : bool :=
  bool_decide (MT5Account.id r = accountId)
  && rls_using mt5_accounts_policies SELECT db uid r
  && rls_using mt5_accounts_policies UPDATE db uid r.

(** [supabase.from('mt5_accounts').update(updates).eq('id', accountId)]
    under the policies; the value is the number of rows updated. The new
    rows have to pass the WITH CHECK expressions for UPDATE and the USING
    expressions for SELECT; the keys are checked when the SET clause
    assigns them. *)
Definition update_mt5_accounts (uid : option UUID) (accountId : UUID)
    (updates : PartialMT5Account.t) : Tx nat :=
  let! db := tx_get in
  do! tx_guard (in_decimal_10_2 (PartialMT5Account.initial_deposit updates)
                && in_decimal_10_2 (PartialMT5Account.current_balance updates))
               numeric_value_out_of_range in
  let rows' := map (λ r, if update_target db uid accountId r
                         then apply_updates updates r else r)
                   (mt5_accounts db) in
  do! tx_guard (forallb (λ r, negb (update_target db uid accountId r)
                              || (rls_check mt5_accounts_policies UPDATE db uid
                                            (apply_updates updates r)
                                  && rls_using mt5_accounts_policies SELECT db uid
                                               (apply_updates updates r)))
                        (mt5_accounts db))
               insufficient_privilege in
  let updated := existsb (update_target db uid accountId) (mt5_accounts db) in
  do! tx_guard (match PartialMT5Account.id updates with
                | Some _ => negb updated || keys_unique MT5Account.id rows'
                | None => true
                end)
               unique_violation in
  do! tx_guard (match PartialMT5Account.user_id updates with
                | Some owner => negb updated || key_in AuthUser.id owner (auth_users db)
                | None => true
                end)
               foreign_key_violation in
  do! tx_put (set_mt5_accounts rows' db) in
  tx_ret (length (List.filter (update_target db uid accountId)
                         (mt5_accounts db))).

(** *** Registration *)

(** [obj ->> key]: the field as text; SQL NULL when the object is NULL, the
    key is missing or the value is JSON null. *)
Definition json_get_text (obj : option (gmap string json)) (key : string)
  : option string :=
  match obj with
  | None => None
  | Some m =>
      match m !! key with
      | Some (JString s) => Some s
      | Some (JOther text) => Some text
      | Some JNull => None
      | None => None
      end
  end.

(** [COALESCE(a, d)] *)
Definition COALESCE (a : option string) (d : string) : string :=
  match a with
  | Some s => s
  | None => d
  end.

(** The two INSERTs of [handle_new_user]. The function is SECURITY DEFINER:
    it runs as the owner of the tables, whom the policies do not bind, so
    only the constraints of the tables are checked. *)
Definition insert_profile_as_owner (r : Profile.row) : Tx unit :=
  let! db := tx_get in
  do! tx_guard (negb (key_in Profile.id (Profile.id r) (profiles db)))
               unique_violation in
  do! tx_guard (negb (key_in Profile.user_id (Profile.user_id r) (profiles db)))
               unique_violation in
  do! tx_guard (key_in AuthUser.id (Profile.user_id r) (auth_users db))
               foreign_key_violation in
  tx_put (set_profiles (profiles db ++ [r]) db).

Definition insert_user_role_as_owner (r : UserRole.row) : Tx unit :=
  let! db := tx_get in
  do! tx_guard (negb (key_in UserRole.id (UserRole.id r) (user_roles db)))
               unique_violation in
  do! tx_guard (negb (existsb (λ r', bool_decide (UserRole.user_id r' = UserRole.user_id r)
                                     && bool_decide (UserRole.role r' = UserRole.role r))
                              (user_roles db)))
               unique_violation in
  do! tx_guard (key_in AuthUser.id (UserRole.user_id r) (auth_users db))
               foreign_key_violation in
  tx_put (set_user_roles (user_roles db ++ [r]) db).

(** [public.handle_new_user()]; [profile_id] and [role_id] are the values
    [gen_random_uuid()] gives the two new rows. *)
Definition handle_new_user (NEW : AuthUser.row) (profile_id role_id : UUID)
  : Tx AuthUser.row :=
  do! insert_profile_as_owner
        (Profile.mk profile_id (AuthUser.id NEW)
           (COALESCE (json_get_text (AuthUser.raw_user_meta_data NEW) "full_name") "")
           (COALESCE (json_get_text (AuthUser.raw_user_meta_data NEW) "telegram_handle") ""))
  in
  do! insert_user_role_as_owner (UserRole.mk role_id (AuthUser.id NEW) user) in
  tx_ret NEW.

(** An INSERT of one row into [auth.users] (what [supabase.auth.signUp]
    does in the store), with the trigger
    [on_auth_user_created AFTER INSERT ON auth.users FOR EACH ROW]. *)
Definition insert_auth_user (NEW : AuthUser.row) (profile_id role_id : UUID)
  : Tx unit :=
  let! db := tx_get in
  do! tx_guard (negb (key_in AuthUser.id (AuthUser.id NEW) (auth_users db)))
               unique_violation in
  do! tx_put (set_auth_users (auth_users db ++ [NEW]) db) in
  do! handle_new_user NEW profile_id role_id in
  tx_ret tt.

(** *** Platform Settings *)

(** [settingsForm] of Admin.tsx *)
Record settingsForm := mkSettingsForm {
  form_fbs_partner_link : string;
  form_usdt_wallet_address : string;
  form_telegram_bot_username : string
}.

(** [supabase.from('admin_settings').upsert({id: adminSettings?.id, ...settingsForm})]
    (Admin.updateSettings): INSERT ... ON CONFLICT (id) DO UPDATE. The
    proposed row has to pass the WITH CHECK expressions for INSERT; on a
    conflict the existing row has to pass the USING expressions and the new
    one the WITH CHECK expressions for UPDATE, or the statement fails. *)
Definition upsert_admin_settings (uid : option UUID) (id : option UUID)
    (gen_id : UUID) (form : settingsForm) : Tx unit :=
  let! db := tx_get in
  let new := AdminSettings.mk (default gen_id id)
               (Some (form_fbs_partner_link form))
               (Some (form_usdt_wallet_address form))
               (Some (form_telegram_bot_username form)) in
  do! tx_guard (rls_check admin_settings_policies INSERT db uid new)
               insufficient_privilege in
  if key_in AdminSettings.id (AdminSettings.id new) (admin_settings db) then
    do! tx_guard (forallb (λ r, negb (bool_decide (AdminSettings.id r = AdminSettings.id new))
                                || (rls_using admin_settings_policies UPDATE db uid r
                                    && rls_using admin_settings_policies SELECT db uid r))
                          (admin_settings db)
                  && rls_check admin_settings_policies UPDATE db uid new)
                 insufficient_privilege in
    tx_put (set_admin_settings
              (map (λ r, if bool_decide (AdminSettings.id r = AdminSettings.id new)
                         then new else r)
                   (admin_settings db))
              db)
  else
    tx_put (set_admin_settings (admin_settings db ++ [new]) db).

(** The state the first migration leaves: empty tables and the default
    settings row, whose id is the value [gen_random_uuid()] gave it. *)
Definition initial_database (settings_id : UUID) : Database :=
  mkDatabase [] [] [] []
    [AdminSettings.mk settings_id
       (Some "https://fbs.com/partner-link")
       (Some "TBD_USDT_ADDRESS")
       (Some "your_telegram_bot")].

(** ** The client *)

(** A JavaScript string is falsy when it is empty. *)
Definition falsy (s : string) : bool := bool_decide (s = "").

(** What a handler reports back to the user. *)
Inductive notification :=
| toast_Missing_information
| toast_Invalid_deposit_amount
| toast_Error (e : pg_error)
| toast_Account_updated
| toast_Settings_updated
| onAccountAdded.

(** [formData] of MT5AccountForm *)
Record formData := mkFormData {
  accountId : string;
  password : string;
  server : string;
  initialDeposit : string
}.

Section Client.

(** [parseFloat] of the JavaScript runtime; [None] is NaN. The deposit
    field is a number input with [step="0.01"], and the amount is read in
    hundredths, as the column stores it. *)
Variable parseFloat : string → option Z.

(** MT5AccountForm.handleSubmit, for the signed-in [user] ([useAuth()]).
    The columns the payload leaves out take their defaults:
    [id DEFAULT gen_random_uuid()] (here [gen_id]),
    [profit_target_reached DEFAULT FALSE], [commission_paid DEFAULT FALSE].
    Without a session the request is anonymous and [user_id] is missing
    from the payload; the WITH CHECK expressions are evaluated before the
    NOT NULL constraint and none is true then, so the owner written in the
    candidate row below is never stored. *)
Definition handleSubmit (user : option UUID) (gen_id : UUID) (formData : formData)
    (db : Database) : notification * Database :=
  if falsy (accountId formData) || falsy (password formData)
     || falsy (server formData) || falsy (initialDeposit formData)
  then (toast_Missing_information, db)
  else
    match parseFloat (initialDeposit formData) with
    | None => (toast_Invalid_deposit_amount, db)
    | Some initialDeposit =>
        if bool_decide (initialDeposit ≤ 0)
        then (toast_Invalid_deposit_amount, db)
        else
          match run (insert_mt5_account user
                       (MT5Account.mk gen_id (default "" user)
                          (accountId formData) (password formData) (server formData)
                          (Some initialDeposit)
                          (Some initialDeposit)
                          false false))
                    db with
          | (Ok _, db') => (onAccountAdded, db')
          | (Err e, db') => (toast_Error e, db')
          end
    end.

(** Admin.updateMT5Account *)
Definition updateMT5Account (uid : option UUID) (accountId : UUID)
    (updates : PartialMT5Account.t) (db : Database) : notification * Database :=
  match run (update_mt5_accounts uid accountId updates) db with
  | (Ok _, db') => (toast_Account_updated, db')
  | (Err e, db') => (toast_Error e, db')
  end.

(** The three controls of an account card on the Admin page. *)
Definition onChange_current_balance (uid : option UUID) (account : MT5Account.row)
    (value : string) : Database → notification * Database :=
  let newBalance := default 0 (parseFloat value) in
  updateMT5Account uid (MT5Account.id account)
    (PartialMT5Account.mk None None None None None None (Some newBalance) None None).

Definition onChange_profit_target_reached (uid : option UUID)
    (account : MT5Account.row) (checked : bool) : Database → notification * Database :=
  updateMT5Account uid (MT5Account.id account)
    (PartialMT5Account.mk None None None None None None None (Some checked) None).

Definition onChange_commission_paid (uid : option UUID)
    (account : MT5Account.row) (checked : bool) : Database → notification * Database :=
  updateMT5Account uid (MT5Account.id account)
    (PartialMT5Account.mk None None None None None None None None (Some checked)).

(** Admin.updateSettings; [id] is [adminSettings?.id]. *)
Definition updateSettings (uid : option UUID) (id : option UUID) (gen_id : UUID)
    (form : settingsForm) (db : Database) : notification * Database :=
  match run (upsert_admin_settings uid id gen_id form) db with
  | (Ok _, db') => (toast_Settings_updated, db')
  | (Err e, db') => (toast_Error e, db')
  end.

(** The requests the application sends to the store. *)
Inductive request :=
| SignUp (NEW : AuthUser.row) (profile_id role_id : UUID)
| SubmitAccount (user : option UUID) (gen_id : UUID) (form : formData)
| UpdateAccount (uid : option UUID) (accountId : UUID) (updates : PartialMT5Account.t)
| UpdateSettings (uid : option UUID) (id : option UUID) (gen_id : UUID) (form : settingsForm)
| FetchAccounts (uid : option UUID)
| FetchSettings (uid : option UUID).

(** The database after a request. *)
Definition step (db : Database) (req : request) : Database :=
  match req with
  | SignUp NEW profile_id role_id =>
      snd (run (insert_auth_user NEW profile_id role_id) db)
  | SubmitAccount u gen_id form => snd (handleSubmit u gen_id form db)
  | UpdateAccount uid accountId updates =>
      snd (updateMT5Account uid accountId updates db)
  | UpdateSettings uid id gen_id form => snd (updateSettings uid id gen_id form db)
  | FetchAccounts uid => snd (run (select_mt5_accounts_eq_user_id uid uid) db)
  | FetchSettings uid => snd (run (fetch_usdt_wallet_address uid) db)
  end.

Definition steps (db : Database) (reqs : list request) : Database :=
  fold_left step reqs db.

End Client.

(** *** Dashboard *)

(** [x || 0] on a number that may be missing. *)
Definition or0 (x : option Z) : Z :=
  match x with
  | Some v => v
  | None => 0
  end.

(** [mt5Accounts.reduce((sum, account) => sum + (account.current_balance || 0), 0)] *)
Definition totalBalance (mt5Accounts : list MT5Account.row) : Z :=
  fold_left (λ sum account, sum + or0 (MT5Account.current_balance account))
            mt5Accounts 0.

(** [mt5Accounts.reduce((sum, account) => { const profit = ...; return sum + Math.max(0, profit); }, 0)] *)
Definition totalProfit (mt5Accounts : list MT5Account.row) : Z :=
  fold_left (λ sum account,
               let profit := or0 (MT5Account.current_balance account)
                             - or0 (MT5Account.initial_deposit account) in
               sum + Z.max 0 profit)
            mt5Accounts 0.

(** The badge of an account card (Dashboard and Admin):
    [account.profit_target_reached && <Badge>{account.commission_paid ?
    "Commission Paid" : "Commission Due"}</Badge>]; [None] is no badge. *)
Definition badge (account : MT5Account.row) : option string :=
  if MT5Account.profit_target_reached account
  then Some (if MT5Account.commission_paid account
             then "Commission Paid" else "Commission Due")
  else None.

(** The [mt5Accounts] state of the Dashboard after [fetchData]: the rows of
    the response, the initial [[]] when the request fails. *)
Definition Dashboard_mt5Accounts (user : option UUID) (db : Database)
  : list MT5Account.row :=
  match fst (run (select_mt5_accounts_eq_user_id user user) db) with
  | Ok rows => rows
  | Err _ => []
  end.

(** The badges the Dashboard renders, one entry per account card. *)
Definition Dashboard_badges (user : option UUID) (db : Database)
  : list (option string) :=
  map badge (Dashboard_mt5Accounts user db).

(** ** Definitions the statements below use *)

(** The database after a registration that went through. *)
Definition after_registration (db : Database) (NEW : AuthUser.row)
    (profile_id role_id : UUID) : Database :=
  mkDatabase
    (auth_users db ++ [NEW])
    (profiles db ++
       [Profile.mk profile_id (AuthUser.id NEW)
          (match json_get_text (AuthUser.raw_user_meta_data NEW) "full_name" with
           | Some s => s
           | None => ""
           end)
          (match json_get_text (AuthUser.raw_user_meta_data NEW) "telegram_handle" with
           | Some s => s
           | None => ""
           end)])
    (mt5_accounts db)
    (user_roles db ++ [UserRole.mk role_id (AuthUser.id NEW) user])
    (admin_settings db).

(** The keys of the three new rows are free. *)
Definition registration_keys_free (db : Database) (NEW : AuthUser.row)
    (profile_id role_id : UUID) : bool :=
  negb (key_in AuthUser.id (AuthUser.id NEW) (auth_users db))
  && negb (key_in Profile.id profile_id (profiles db))
  && negb (key_in Profile.user_id (AuthUser.id NEW) (profiles db))
  && negb (key_in UserRole.id role_id (user_roles db))
  && negb (existsb (λ r', bool_decide (UserRole.user_id r' = AuthUser.id NEW)
                          && bool_decide (UserRole.role r' = user))
                   (user_roles db)).

(** The row [handleSubmit] sends for a deposit of [d] hundredths. *)
Definition submitted_row (u : UUID) (gen_id : UUID) (form : formData) (d : Z)
  : MT5Account.row :=
  MT5Account.mk gen_id u (accountId form) (password form) (server form)
    (Some d) (Some d) false false.

(** A request that changes the database is a registration with free keys,
    a submitted account, an administrator's update or a settings upsert. *)
Inductive step_effect (parseFloat : string → option Z) (db : Database)
  : request → Database → Prop :=
| effect_none req :
    step_effect parseFloat db req db
| effect_registration NEW profile_id role_id :
    registration_keys_free db NEW profile_id role_id = true →
    step_effect parseFloat db (SignUp NEW profile_id role_id)
      (after_registration db NEW profile_id role_id)
| effect_submission u gen_id form d :
    parseFloat (initialDeposit form) = Some d →
    0 < d →
    (has_role db u admin = false → is_Some u) →
    step_effect parseFloat db (SubmitAccount u gen_id form)
      (set_mt5_accounts
         (mt5_accounts db ++ [submitted_row (default "" u) gen_id form d]) db)
| effect_update uid accountId updates :
    has_role db uid admin = true →
    step_effect parseFloat db (UpdateAccount uid accountId updates)
      (set_mt5_accounts
         (map (λ r, if bool_decide (MT5Account.id r = accountId)
                    then apply_updates updates r else r)
              (mt5_accounts db))
         db)
| effect_settings uid id gen_id form l :
    step_effect parseFloat db (UpdateSettings uid id gen_id form) (set_admin_settings l db).

(** The total the specification names: the sum over the accounts of
    max(0, current_balance - initial_deposit), a missing value counting
    as 0. *)
Fixpoint spec_total_profit (accounts : list MT5Account.row) : Z :=
  match accounts with
  | [] => 0
  | account :: rest =>
      Z.max 0 (or0 (MT5Account.current_balance account)
               - or0 (MT5Account.initial_deposit account))
      + spec_total_profit rest
  end.

(** *** Registration invariant *)

Definition profiles_of (db : Database) (u : UUID) : list Profile.row :=
  List.filter (λ p, bool_decide (Profile.user_id p = u)) (profiles db).

Definition roles_of (db : Database) (u : UUID) : list UserRole.row :=
  List.filter (λ r, bool_decide (UserRole.user_id r = u)) (user_roles db).

(** [user_id ... REFERENCES auth.users(id)] on [profiles] and [user_roles]. *)
Definition references_ok (db : Database) : Prop :=
  (∀ p, p ∈ profiles db → key_in AuthUser.id (Profile.user_id p) (auth_users db) = true)
  ∧ (∀ r, r ∈ user_roles db → key_in AuthUser.id (UserRole.user_id r) (auth_users db) = true).

(** Every identity has exactly one Profile and at least one Role
    Assignment. *)
Definition every_identity_registered (db : Database) : Prop :=
  ∀ a, a ∈ auth_users db →
       length (profiles_of db (AuthUser.id a)) = 1%nat
       ∧ roles_of db (AuthUser.id a) ≠ [].

Definition consistent (db : Database) : Prop :=
  references_ok db ∧ every_identity_registered db.

(** *** The commission workflow *)

Section Workflow.
Variable parseFloat : string → option Z.

(** The request is an administrator's update of the row [r] that assigns
    [profit_target_reached := false] (the checkbox of the Admin page,
    unchecked). *)
Definition unsets_profit_target (db : Database) (req : request)
    (r : MT5Account.row) : bool :=
  match req with
  | UpdateAccount uid accountId updates =>
      has_role db uid admin
      && bool_decide (MT5Account.id r = accountId)
      && bool_decide (PartialMT5Account.profit_target_reached updates = Some false)
  | _ => false
  end.

(** No request of the sequence unsets the flag of the row at index [i]. *)
Fixpoint never_unsets (db : Database) (i : nat) (reqs : list request) : Prop :=
  match reqs with
  | [] => True
  | req :: rest =>
      (∀ r, mt5_accounts db !! i = Some r → unsets_profit_target db req r = false)
      ∧ never_unsets (step parseFloat db req) i rest
  end.

(** [commission_paid] only with [profit_target_reached]. *)
Definition commission_rule (r : MT5Account.row) : bool :=
  implb (MT5Account.commission_paid r) (MT5Account.profit_target_reached r).

(** The request is an administrator's update that leaves one of the rows
    it acts on with [commission_paid] true and [profit_target_reached]
    false. *)
Definition breaks_commission_rule (db : Database) (req : request) : bool :=
  match req with
  | UpdateAccount uid accountId updates =>
      has_role db uid admin
      && existsb (λ r, bool_decide (MT5Account.id r = accountId)
                       && negb (commission_rule (apply_updates updates r)))
                 (mt5_accounts db)
  | _ => false
  end.

Fixpoint never_breaks (db : Database) (reqs : list request) : Prop :=
  match reqs with
  | [] => True
  | req :: rest =>
      breaks_commission_rule db req = false
      ∧ never_breaks (step parseFloat db req) rest
  end.

End Workflow.

(** ** Sample data

    A small store for the concrete checks: an administrator, two users and
    two Trading Accounts, and a [parseFloat] for strings of digits. *)
Module Sample.

Definition root : UUID := "00000000-0000-4000-8000-000000000001".
Definition alice : UUID := "00000000-0000-4000-8000-00000000000a".
Definition bob : UUID := "00000000-0000-4000-8000-00000000000b".

Definition jane_meta : gmap string json :=
  {[ "full_name" := JString "Jane"; "telegram_handle" := JString "@jane" ]}.

Definition account_alice : MT5Account.row :=
  MT5Account.mk "acc-1" alice "123" "secret" "Demo" (Some 100000) (Some 200000) true false.

Definition account_bob : MT5Account.row :=
  MT5Account.mk "acc-2" bob "456" "hidden" "FBS-Real" (Some 50000) (Some 40000) false false.

Definition db : Database :=
  mkDatabase
    [AuthUser.mk root None;
     AuthUser.mk alice (Some jane_meta);
     AuthUser.mk bob None]
    [Profile.mk "p-1" root "" "";
     Profile.mk "p-2" alice "Jane" "@jane";
     Profile.mk "p-3" bob "" ""]
    [account_alice; account_bob]
    [UserRole.mk "r-1" root user;
     UserRole.mk "r-2" root admin;
     UserRole.mk "r-3" alice user;
     UserRole.mk "r-4" bob user]
    [AdminSettings.mk "s-1" (Some "https://fbs.com/partner-link")
       (Some "TBD_USDT_ADDRESS") (Some "your_telegram_bot")].

(** A store in which only the administrator is registered (the admin role
    is granted outside the application). *)
Definition db_admin_only : Database :=
  mkDatabase
    [AuthUser.mk root None]
    [Profile.mk "p-1" root "" ""]
    []
    [UserRole.mk "r-1" root user; UserRole.mk "r-2" root admin]
    [AdminSettings.mk "s-1" (Some "https://fbs.com/partner-link")
       (Some "TBD_USDT_ADDRESS") (Some "your_telegram_bot")].

Definition form_123 : formData := mkFormData "123" "secret" "Demo" "1000".

Definition set_flag_target (checked : bool) : PartialMT5Account.t :=
  PartialMT5Account.mk None None None None None None None (Some checked) None.

Definition set_flag_paid (checked : bool) : PartialMT5Account.t :=
  PartialMT5Account.mk None None None None None None None None (Some checked).

Definition digit_of (c : Ascii.ascii) : option Z :=
  let n := Z.of_nat (Ascii.nat_of_ascii c) in
  if (48 <=? n) && (n <=? 57) then Some (n - 48) else None.

Fixpoint parse_digits (acc : Z) (s : string) : option Z :=
  match s with
  | EmptyString => Some acc
  | String c s' =>
      match digit_of c with
      | Some d => parse_digits (10 * acc + d) s'
      | None => None
      end
  end.

(** A whole amount in digits, in hundredths; anything else is NaN. *)
Definition parseFloat (s : string) : option Z :=
  match s with
  | EmptyString => None
  | _ => match parse_digits 0 s with
         | Some n => Some (100 * n)
         | None => None
         end
  end.

End Sample.

(** ** The rest of the pages

    Below: the other reads and computations of Dashboard.tsx and
    Admin.tsx, and the handlers of Auth.tsx. A string is held as its UTF-8
    bytes. *)

(** [supabase.from('profiles').select(...)] (Admin.fetchData). *)
Definition select_profiles (uid : option UUID) : Tx (list Profile.row) :=
  let! db := tx_get in
  tx_ret (rls_select profiles_policies db uid (profiles db)).

(** [supabase.from('admin_settings').select('fbs_partner_link').single()]
    (Auth.handleSignup). *)
Definition fetch_fbs_partner_link (uid : option UUID) : Tx (result (option string)) :=
  let! rows := select_admin_settings uid in
  tx_ret (match single rows with
          | Ok r => Ok (AdminSettings.fbs_partner_link r)
          | Err e => Err e
          end).

(** *** Dashboard.tsx *)

(** The first query of [fetchData]: the profile of the signed-in user.
    PGRST116 leaves [profileData] null; any other error is thrown. *)
Definition Dashboard_profile (user : option UUID) (db : Database)
  : result (option Profile.row) :=
  match fst (run (select_profiles_eq_user_id user user) db) with
  | Ok rows =>
      match single rows with
      | Ok p => Ok (Some p)
      | Err PGRST116 => Ok None
      | Err e => Err e
      end
  | Err e => Err e
  end.

(** [profile?.full_name || 'Trader'] *)
Definition welcome_name (profile : option Profile.row) : string :=
  match profile with
  | Some p => if falsy (Profile.full_name p) then "Trader" else Profile.full_name p
  | None => "Trader"
  end.

(** [(account.current_balance || 0) - (account.initial_deposit || 0)] *)
Definition profit (account : MT5Account.row) : Z :=
  or0 (MT5Account.current_balance account) - or0 (MT5Account.initial_deposit account).

(** Dashboard: [isProfitable = profit > 0] picks green over red. *)
Definition isProfitable (account : MT5Account.row) : bool :=
  bool_decide (0 < profit account).

(** Admin: [profit >= 0 ? 'text-green-500' : 'text-red-500']. *)
Definition Admin_profit_is_green (account : MT5Account.row) : bool :=
  bool_decide (0 ≤ profit account).

(** Dashboard: the "Commission Payment Required" box,
    [account.profit_target_reached && !account.commission_paid && ...]. *)
Definition payment_required (account : MT5Account.row) : bool :=
  MT5Account.profit_target_reached account && negb (MT5Account.commission_paid account).

(** Dashboard: the "Commission paid - Trading active" line,
    [account.commission_paid && ...]. *)
Definition commission_paid_line (account : MT5Account.row) : bool :=
  MT5Account.commission_paid account.

(** *** Admin.tsx *)

(** [interface User] (without [created_at]). *)
Module AdminUser.
Record t := mk {
  id : UUID;
  full_name : string;
  telegram_handle : string;
  email : string
}.
End AdminUser.

Section AdminPage.

(** [supabase.auth.admin.getUserById(id)], as far as the page reads it:
    [authData.user?.email], [None] when the call throws or the field is
    missing. *)
Variable getUserById_email : UUID → option string.

(** [usersWithEmails] of [fetchData]. *)
Definition usersWithEmails (userData : list Profile.row) : list AdminUser.t :=
  map (λ profile,
         AdminUser.mk (Profile.user_id profile) (Profile.full_name profile)
           (Profile.telegram_handle profile)
           (match getUserById_email (Profile.user_id profile) with
            | Some e => if falsy e then "N/A" else e
            | None => "N/A"
            end))
      userData.

(** The [users] state after [fetchData]. *)
Definition Admin_users (uid : option UUID) (db : Database) : list AdminUser.t :=
  match fst (run (select_profiles uid) db) with
  | Ok userData => usersWithEmails userData
  | Err _ => []
  end.

End AdminPage.

(** [users.find(u => u.id === userId)]; [user?.full_name || 'Unknown User'] *)
Definition getUserNameById (users : list AdminUser.t) (userId : UUID) : string :=
  match List.find (λ u, bool_decide (AdminUser.id u = userId)) users with
  | Some u => if falsy (AdminUser.full_name u) then "Unknown User" else AdminUser.full_name u
  | None => "Unknown User"
  end.

(** [mt5Accounts.filter(a => a.profit_target_reached && !a.commission_paid).length] *)
Definition accountsNeedingCommission (mt5Accounts : list MT5Account.row) : nat :=
  length (List.filter (λ a, MT5Account.profit_target_reached a
                            && negb (MT5Account.commission_paid a))
                      mt5Accounts).

(** [togglePasswordVisibility]: [{...prev, [accountId]: !prev[accountId]}];
    a missing key reads as [undefined], which is falsy. *)
Definition togglePasswordVisibility (accountId : UUID) (prev : gmap string bool)
  : gmap string bool :=
  <[accountId := negb (default false (prev !! accountId))]> prev.

(** [type={showPasswords[account.id] ? "text" : "password"}] *)
Definition password_input_type (showPasswords : gmap string bool) (accountId : UUID)
  : string :=
  if default false (showPasswords !! accountId) then "text" else "password".

(** *** Auth.tsx *)

(** [key.includes(sub)] *)
Fixpoint includes (sub key : string) : bool :=
  String.prefix sub key
  || match key with
     | EmptyString => false
     | String _ rest => includes sub rest
     end.

(** The keys [cleanupAuthState] removes:
    [key.startsWith('supabase.auth.') || key.includes('sb-')]. *)
Definition is_auth_key (key : string) : bool :=
  String.prefix "supabase.auth." key || includes "sb-" key.

(** [cleanupAuthState]: [Object.keys(localStorage).forEach(key => ...
    localStorage.removeItem(key))]. *)
Definition cleanupAuthState (localStorage : gmap string string) : gmap string string :=
  fold_left (λ store key, if is_auth_key key then delete key store else store)
            (map fst (map_to_list localStorage))
            localStorage.

(** [signupForm] *)
Record signupForm := mkSignupForm {
  fullName : string;
  email : string;
  telegramHandle : string;
  signup_password : string;
  confirmPassword : string
}.

(** What [handleSignup] does after [e.preventDefault()]. *)
Inductive signup_action :=
| signup_Missing_information
| signup_Password_mismatch
| signup_Password_too_short
| signup_Please_select_an_option
| signup_open_partner_link (partnerLink : string)
| signup_signUp (email password : string) (data : gmap string json).

(** [s.length]: the number of UTF-16 code units of a string held as its
    UTF-8 bytes. A byte below 128 and a byte that starts a character of
    two or three bytes count one, a byte that starts a character of four
    bytes counts two (a surrogate pair), a continuation byte none. *)
Fixpoint utf16_length (s : string) : nat :=
  match s with
  | EmptyString => 0%nat
  | String c rest =>
      let b := Ascii.nat_of_ascii c in
      ((if b <? 128 then 1 else if b <? 192 then 0 else if b <? 240 then 1 else 2)
       + utf16_length rest)%nat
  end.

(** [settings?.fbs_partner_link || 'https://fbs.com/partner-link'] after
    the settings read of [handleSignup]. *)
Definition partnerLink (uid : option UUID) (db : Database) : string :=
  match fst (run (fetch_fbs_partner_link uid) db) with
  | Ok (Ok (Some link)) =>
      if falsy link then "https://fbs.com/partner-link" else link
  | _ => "https://fbs.com/partner-link"
  end.

(** [handleSignup]; [hasAccount] is the value of the radio group and [uid]
    the caller of the settings read. [window_open link] tells whether
    [window.open(link, '_blank')] returns; it throws on a link that does
    not parse as a URL. The branch for [hasAccount === 'no'] sits in a
    [try] whose [catch] only logs: when [window.open] throws, the handler
    goes on to [signUp]. *)
Definition handleSignup (window_open : string → bool) (form : signupForm)
    (hasAccount : string) (uid : option UUID) (db : Database) : signup_action :=
  if falsy (fullName form) || falsy (email form) || falsy (telegramHandle form)
     || falsy (signup_password form)
  then signup_Missing_information
  else if negb (bool_decide (signup_password form = confirmPassword form))
  then signup_Password_mismatch
  else if bool_decide (utf16_length (signup_password form) < 6)%nat
  then signup_Password_too_short
  else if falsy hasAccount
  then signup_Please_select_an_option
  else if bool_decide (hasAccount = "no") && window_open (partnerLink uid db)
  then signup_open_partner_link (partnerLink uid db)
  else
    signup_signUp (email form) (signup_password form)
      {[ "full_name" := JString (fullName form);
         "telegram_handle" := JString (telegramHandle form) ]}.

(** The row [supabase.auth.signUp] inserts into [auth.users] for the
    metadata [data]; [new_id] is the id the identity provider gives it. *)
Definition signUp_row (new_id : UUID) (data : gmap string json) : AuthUser.row :=
  AuthUser.mk new_id (Some data).

(** The caller of a request; a registration runs in the identity
    provider and has none. *)
Definition request_caller (req : request) : option (option UUID) :=
  match req with
  | SignUp _ _ _ => None
  | SubmitAccount u _ _ => Some u
  | UpdateAccount uid _ _ => Some uid
  | UpdateSettings uid _ _ _ => Some uid
  | FetchAccounts uid => Some uid
  | FetchSettings uid => Some uid
  end.

(** ** Row-level operations beside the application's requests

    The store answers every caller of its REST interface, not only the
    pages: a row of [mt5_accounts] can be inserted with every column given
    ([insert_mt5_account]) and rows can be deleted. *)




Section Operations.
Variable parseFloat : string → option Z.





End Operations.

(** ** The [updated_at] column of [mt5_accounts]

    The trigger [update_mt5_accounts_updated_at BEFORE UPDATE ON
    mt5_accounts FOR EACH ROW] runs [update_updated_at_column], which sets
    [NEW.updated_at = now()] on every row the statement updates, whether or
    not a value changes. The column is held beside the table, one value
    per row in the order of the rows; [now] is the time of the statement.
    A statement that fails is rolled back with what its triggers wrote. *)
Definition updated_at_after_update (now : Z) (db : Database) (uid : option UUID)
    (accountId : UUID) (updates : PartialMT5Account.t) (updated_at : list Z)
  : list Z :=
  match fst (run (update_mt5_accounts uid accountId updates) db) with
  | Ok _ =>
      zip_with (λ r t, if update_target db uid accountId r then now else t)
               (mt5_accounts db) updated_at
  | Err _ => updated_at
  end.

(** ** The account form on JavaScript numbers

    [handleSubmit] above reads the deposit in whole hundredths. Here the
    handler is given the number [parseFloat] returns: NaN, an infinity, or
    a finite number, held as the rational its JSON text denotes. *)
Inductive number := NaN | Infinity | NegInfinity | Finite (q : Q).

(** [isNaN(x)] *)
Definition isNaN (x : number) : bool :=
  match x with
  | NaN => true
  | _ => false
  end.

(** [x <= 0] *)
Definition number_le_0 (x : number) : bool :=
  match x with
  | NaN => false
  | Infinity => false
  | NegInfinity => true
  | Finite q => Qle_bool q 0
  end.

(** The value a [DECIMAL(10,2)] column takes from a JSON number, in
    hundredths: the number is rounded to two places, ties away from
    zero. *)
Definition to_hundredths (q : Q) : Z :=
  let n := Qnum q * 100 in
  let d := Z.pos (Qden q) in
  Z.sgn n * ((2 * Z.abs n + d) / (2 * d)).

(** The amount as the request body carries it: [JSON.stringify] writes a
    number that is not finite as [null]. *)
Definition amount_of_number (x : number) : option Z :=
  match x with
  | Finite q => Some (to_hundredths q)
  | _ => None
  end.

(** MT5AccountForm.handleSubmit, with [parseFloat] returning a number. *)
Definition handleSubmit_number (parseFloat : string → number) (user : option UUID)
    (gen_id : UUID) (formData : formData) (db : Database) : notification * Database :=
  if falsy (accountId formData) || falsy (password formData)
     || falsy (server formData) || falsy (initialDeposit formData)
  then (toast_Missing_information, db)
  else
    let initialDeposit := parseFloat (initialDeposit formData) in
    if isNaN initialDeposit || number_le_0 initialDeposit
    then (toast_Invalid_deposit_amount, db)
    else
      match run (insert_mt5_account user
                   (MT5Account.mk gen_id (default "" user)
                      (accountId formData) (password formData) (server formData)
                      (amount_of_number initialDeposit)
                      (amount_of_number initialDeposit)
                      false false))
                db with
      | (Ok _, db') => (onAccountAdded, db')
      | (Err e, db') => (toast_Error e, db')
      end.

(** A [parseFloat] on whole hundredths, seen as one on numbers. *)
Definition number_of_hundredths (x : option Z) : number :=
  match x with
  | Some d => Finite (d # 100)
  | None => NaN
  end.

(** * Properties *)

(** Unfolds the transaction combinators. *)
Ltac tx_unfold :=
  unfold run, tx_bind, tx_get, tx_put, tx_guard, tx_ret, tx_fail in *.


(** ** What the policies of [mt5_accounts] evaluate to *)

Lemma mt5_using_select db uid r :
  rls_using mt5_accounts_policies SELECT db uid r = has_role db uid admin.
Proof. cbn. apply orb_false_r. Qed.

Lemma mt5_using_update db uid r :
  rls_using mt5_accounts_policies UPDATE db uid r = has_role db uid admin.
Proof. cbn. apply orb_false_r. Qed.

Lemma mt5_check_update db uid r :
  rls_check mt5_accounts_policies UPDATE db uid r = has_role db uid admin.
Proof. cbn. apply orb_false_r. Qed.

Lemma mt5_check_insert db uid r :
  rls_check mt5_accounts_policies INSERT db uid r
  = has_role db uid admin || sql_eq_uuid uid (MT5Account.user_id r).
Proof.
  cbn. destruct (has_role db uid admin), (sql_eq_uuid uid (MT5Account.user_id r)); done.
Qed.

Lemma has_role_anonymous db role : has_role db None role = false.
Proof.
  unfold has_role. induction (user_roles db) as [|r l IH]; [done|].
  cbn. exact IH.
Qed.

(** Without a session no WITH CHECK expression for INSERT is true. *)
Lemma anonymous_insert_denied db r :
  rls_check mt5_accounts_policies INSERT db None r = false.
Proof. rewrite mt5_check_insert, has_role_anonymous. done. Qed.

Lemma sql_eq_uuid_true uid x : sql_eq_uuid uid x = true ↔ uid = Some x.
Proof.
  destruct uid as [u|]; cbn; [|split; [done|congruence]].
  rewrite bool_decide_eq_true. split; congruence.
Qed.

Lemma update_target_admin db uid accountId r :
  update_target db uid accountId r
  = bool_decide (MT5Account.id r = accountId) && has_role db uid admin.
Proof.
  unfold update_target. rewrite mt5_using_select, mt5_using_update.
  destruct (bool_decide _), (has_role _ _ _); done.
Qed.

Lemma filter_none {A} (f : A → bool) (l : list A) :
  (∀ x, x ∈ l → f x = false) → List.filter f l = [].
Proof.
  induction l as [|a l IH]; intros Hn; [done|].
  cbn. rewrite (Hn a) by left.
  apply IH. intros x Hx. apply Hn. by right.
Qed.

Lemma filter_all {A} (f : A → bool) (l : list A) :
  (∀ x, x ∈ l → f x = true) → List.filter f l = l.
Proof.
  induction l as [|a l IH]; intros Hn; [done|].
  cbn. rewrite (Hn a) by left.
  f_equal. apply IH. intros x Hx. apply Hn. by right.
Qed.

(** The rows of [mt5_accounts] a caller may read: all of them for an
    administrator, none for anybody else. *)
Lemma rls_select_mt5_admin db uid :
  has_role db uid admin = true →
  rls_select mt5_accounts_policies db uid (mt5_accounts db) = mt5_accounts db.
Proof.
  intros Ha. apply filter_all. intros r _. by rewrite mt5_using_select.
Qed.

Lemma rls_select_mt5_non_admin db uid rows :
  has_role db uid admin = false →
  rls_select mt5_accounts_policies db uid rows = [].
Proof.
  intros Ha. apply filter_none. intros r _. by rewrite mt5_using_select.
Qed.

(** ** Reads of Trading Accounts *)

(** The table has no SELECT policy for owners: the Dashboard of a caller
    without the admin role receives no Trading Account, its own included,
    and renders no account card. *)
Remark Dashboard_of_non_admin_is_empty db caller :
  has_role db caller admin = false →
  Dashboard_mt5Accounts caller db = [] ∧ Dashboard_badges caller db = [].
Proof.
  intros Ha. unfold Dashboard_badges, Dashboard_mt5Accounts,
    select_mt5_accounts_eq_user_id, select_mt5_accounts. tx_unfold. cbn.
  by rewrite rls_select_mt5_non_admin.
Qed.

(** The Dashboard of an administrator receives the administrator's own
    accounts, one badge entry per card. *)
Remark Dashboard_of_admin db caller :
  has_role db caller admin = true →
  Dashboard_mt5Accounts caller db
  = List.filter (λ r, sql_eq_uuid caller (MT5Account.user_id r)) (mt5_accounts db)
  ∧ Dashboard_badges caller db
    = map badge
        (List.filter (λ r, sql_eq_uuid caller (MT5Account.user_id r)) (mt5_accounts db)).
Proof.
  intros Ha. unfold Dashboard_badges, Dashboard_mt5Accounts,
    select_mt5_accounts_eq_user_id, select_mt5_accounts. tx_unfold. cbn [fst].
  by rewrite rls_select_mt5_admin.
Qed.

(** C1. A read of Trading Accounts by a caller without the admin role
    returns only rows whose owner is the caller, with and without the
    Dashboard's [user_id] filter; the read of an administrator returns
    every row of the table. *)
Theorem C1_read_trading_accounts (db : Database) (uid : option UUID) :
  (has_role db uid admin = false →
     ∃ rows, run (select_mt5_accounts uid) db = (Ok rows, db)
             ∧ Forall (λ r, uid = Some (MT5Account.user_id r)) rows
             ∧ ∀ user_id, ∃ rows',
                 run (select_mt5_accounts_eq_user_id uid user_id) db = (Ok rows', db)
                 ∧ Forall (λ r, uid = Some (MT5Account.user_id r)) rows')
  ∧ (has_role db uid admin = true →
       run (select_mt5_accounts uid) db = (Ok (mt5_accounts db), db)).
Proof.
  split; intros Ha.
  - exists []. unfold select_mt5_accounts_eq_user_id, select_mt5_accounts, run,
      tx_bind, tx_get, tx_ret.
    rewrite rls_select_mt5_non_admin by done.
    split; [done|]. split; [constructor|].
    intros user_id. exists []. split; [done | constructor].
  - unfold select_mt5_accounts, run, tx_bind, tx_get, tx_ret.
    by rewrite rls_select_mt5_admin.
Qed.

Lemma C1_witness :
  (∃ rows, run (select_mt5_accounts (Some Sample.alice)) Sample.db = (Ok rows, Sample.db)
           ∧ Forall (λ r, Some Sample.alice = Some (MT5Account.user_id r)) rows
           ∧ ∀ user_id, ∃ rows',
               run (select_mt5_accounts_eq_user_id (Some Sample.alice) user_id) Sample.db
               = (Ok rows', Sample.db)
               ∧ Forall (λ r, Some Sample.alice = Some (MT5Account.user_id r)) rows')
  ∧ run (select_mt5_accounts (Some Sample.root)) Sample.db
    = (Ok [Sample.account_alice; Sample.account_bob], Sample.db).
Proof.
  split.
  - apply (C1_read_trading_accounts Sample.db (Some Sample.alice)).
    vm_compute. reflexivity.
  - apply (C1_read_trading_accounts Sample.db (Some Sample.root)).
    vm_compute. reflexivity.
Defined.

(** ** Writes of Trading Accounts under the policies *)

Lemma set_mt5_accounts_same db : set_mt5_accounts (mt5_accounts db) db = db.
Proof. by destruct db. Qed.

Lemma map_no_target (f : MT5Account.row → bool) (g : MT5Account.row → MT5Account.row)
    (rows : list MT5Account.row) :
  (∀ r, r ∈ rows → f r = false) →
  map (λ r, if f r then g r else r) rows = rows.
Proof.
  induction rows as [|a l IH]; intros Hn; [done|].
  cbn. rewrite (Hn a) by left. f_equal. apply IH.
  intros r Hr. apply Hn. by right.
Qed.

Lemma existsb_none {A} (f : A → bool) (l : list A) :
  (∀ x, x ∈ l → f x = false) → existsb f l = false.
Proof.
  induction l as [|a l IH]; intros Hn; [done|].
  cbn. rewrite (Hn a) by left. apply IH. intros x Hx. apply Hn. by right.
Qed.

Lemma forallb_all {A} (f : A → bool) (l : list A) :
  (∀ x, x ∈ l → f x = true) → forallb f l = true.
Proof.
  induction l as [|a l IH]; intros Hn; [done|].
  cbn. rewrite (Hn a) by left. apply IH. intros x Hx. apply Hn. by right.
Qed.

(** An UPDATE that acts on no row answers with a count of zero and leaves
    the database as it is, unless a value of the SET clause does not fit
    its column. *)
Lemma update_without_target db uid accountId updates :
  (∀ r, r ∈ mt5_accounts db → update_target db uid accountId r = false) →
  run (update_mt5_accounts uid accountId updates) db
  = (if in_decimal_10_2 (PartialMT5Account.initial_deposit updates)
        && in_decimal_10_2 (PartialMT5Account.current_balance updates)
     then Ok 0%nat else Err numeric_value_out_of_range, db).
Proof.
  intros Hn. unfold update_mt5_accounts. tx_unfold.
  destruct (in_decimal_10_2 _ && in_decimal_10_2 _); [|done].
  rewrite (forallb_all _ _) by (intros r Hr; by rewrite (Hn r Hr)).
  rewrite (existsb_none _ _ Hn).
  rewrite (map_no_target _ _ _ Hn), (filter_none _ _ Hn), set_mt5_accounts_same.
  by destruct (PartialMT5Account.id updates), (PartialMT5Account.user_id updates).
Qed.

Lemma update_by_non_admin db uid accountId updates :
  has_role db uid admin = false →
  snd (run (update_mt5_accounts uid accountId updates) db) = db.
Proof.
  intros Ha. rewrite update_without_target.
  - done.
  - intros r _. rewrite update_target_admin, Ha. apply andb_false_r.
Qed.

(** What an UPDATE of Trading Accounts can do to the database: nothing, or,
    for an administrator, the SET clause on the rows with the given id. *)
Lemma update_mt5_accounts_cases db uid accountId updates :
  snd (run (update_mt5_accounts uid accountId updates) db) = db
  ∨ (has_role db uid admin = true
     ∧ snd (run (update_mt5_accounts uid accountId updates) db)
       = set_mt5_accounts
           (map (λ r, if bool_decide (MT5Account.id r = accountId)
                      then apply_updates updates r else r)
                (mt5_accounts db))
           db).
Proof.
  destruct (has_role db uid admin) eqn:Ha.
  - unfold update_mt5_accounts. tx_unfold.
    repeat match goal with
           | |- context [if ?b then _ else _] => destruct b; cbn; auto
           end.
    right. split; [done|]. f_equal. apply map_ext. intros r.
    rewrite update_target_admin, Ha. by rewrite andb_true_r.
  - left. by apply update_by_non_admin.
Qed.

Lemma key_in_app {A} (f : A → UUID) x (l1 l2 : list A) :
  key_in f x (l1 ++ l2) = key_in f x l1 || key_in f x l2.
Proof. unfold key_in. apply existsb_app. Qed.

Lemma key_in_last {A} (f : A → UUID) (l : list A) (a : A) :
  key_in f (f a) (l ++ [a]) = true.
Proof.
  rewrite key_in_app. apply orb_true_iff. right.
  unfold key_in. cbn. by rewrite bool_decide_eq_true_2.
Qed.

Lemma insert_auth_user_ok db NEW profile_id role_id :
  registration_keys_free db NEW profile_id role_id = true →
  run (insert_auth_user NEW profile_id role_id) db
  = (Ok tt, after_registration db NEW profile_id role_id).
Proof.
  unfold registration_keys_free. rewrite !andb_true_iff.
  intros [[[[H1 H2] H3] H4] H5].
  unfold insert_auth_user, handle_new_user, insert_profile_as_owner,
    insert_user_role_as_owner. tx_unfold. cbn.
  rewrite H1; cbn. rewrite H2; cbn. rewrite H3, key_in_last; cbn.
  rewrite H4; cbn. rewrite H5, key_in_last; cbn. done.
Qed.

Lemma insert_auth_user_err db NEW profile_id role_id :
  registration_keys_free db NEW profile_id role_id = false →
  ∃ e, run (insert_auth_user NEW profile_id role_id) db = (Err e, db).
Proof.
  unfold registration_keys_free. intros Hf.
  unfold insert_auth_user, handle_new_user, insert_profile_as_owner,
    insert_user_role_as_owner. tx_unfold. cbn.
  destruct (key_in AuthUser.id _ (auth_users db)); cbn in *; [eexists; reflexivity|].
  destruct (key_in Profile.id _ (profiles db)); cbn in *; [eexists; reflexivity|].
  destruct (key_in Profile.user_id _ (profiles db)); cbn in *; [eexists; reflexivity|].
  rewrite key_in_last; cbn.
  destruct (key_in UserRole.id _ (user_roles db)); cbn in *; [eexists; reflexivity|].
  rewrite Hf. eexists; reflexivity.
Qed.

(** The answer to an INSERT of a Trading Account, check by check. *)
Lemma insert_mt5_account_run db uid r :
  run (insert_mt5_account uid r) db
  = if negb (in_decimal_10_2 (MT5Account.initial_deposit r)
             && in_decimal_10_2 (MT5Account.current_balance r))
    then (Err numeric_value_out_of_range, db)
    else if negb (rls_check mt5_accounts_policies INSERT db uid r)
    then (Err insufficient_privilege, db)
    else if key_in MT5Account.id (MT5Account.id r) (mt5_accounts db)
    then (Err unique_violation, db)
    else if negb (key_in AuthUser.id (MT5Account.user_id r) (auth_users db))
    then (Err foreign_key_violation, db)
    else (Ok tt, set_mt5_accounts (mt5_accounts db ++ [r]) db).
Proof.
  unfold insert_mt5_account. tx_unfold.
  destruct (in_decimal_10_2 _ && in_decimal_10_2 _); [|reflexivity].
  destruct (rls_check mt5_accounts_policies INSERT db uid r); [|reflexivity].
  destruct (key_in MT5Account.id _ _); [reflexivity|].
  destruct (key_in AuthUser.id _ _); reflexivity.
Qed.

Lemma sql_eq_uuid_default user :
  sql_eq_uuid user (default "" user) = true ↔ is_Some user.
Proof.
  destruct user as [u|]; cbn.
  - rewrite bool_decide_eq_true. split; [by eexists | done].
  - split; [done | by intros [? ?]].
Qed.

Section ClientFacts.
Variable parseFloat : string → option Z.

(** [handleSubmit] either leaves the database as it is and reports no
    success, or appends the submitted row. *)
Lemma handleSubmit_cases user gen_id form db :
  (snd (handleSubmit parseFloat user gen_id form db) = db
   ∧ fst (handleSubmit parseFloat user gen_id form db) ≠ onAccountAdded)
  ∨ (∃ d, parseFloat (initialDeposit form) = Some d ∧ 0 < d
          ∧ handleSubmit parseFloat user gen_id form db
            = (onAccountAdded,
               set_mt5_accounts
                 (mt5_accounts db ++ [submitted_row (default "" user) gen_id form d])
                 db)
          ∧ (has_role db user admin = false → is_Some user)).
Proof.
  unfold handleSubmit.
  destruct (falsy _ || falsy _ || falsy _ || falsy _); [by left|].
  destruct (parseFloat (initialDeposit form)) as [d|]; [|by left].
  case_bool_decide as Hd; [by left|].
  rewrite insert_mt5_account_run. cbn [MT5Account.initial_deposit
    MT5Account.current_balance MT5Account.id MT5Account.user_id].
  destruct (negb (in_decimal_10_2 _ && _)); [by left|].
  destruct (rls_check mt5_accounts_policies INSERT db user _) eqn:Hc; cbn [negb]; [|by left].
  destruct (key_in MT5Account.id _ _); [by left|].
  destruct (negb (key_in AuthUser.id _ _)); [by left|].
  right. exists d. split; [done|]. split; [lia|]. split; [done|].
  intros Ha. rewrite mt5_check_insert, Ha in Hc. cbn in Hc.
  by apply sql_eq_uuid_default in Hc.
Qed.

(** An upsert of the settings touches [admin_settings] only. *)
Lemma updateSettings_frame uid id gen_id form db :
  ∃ l, snd (updateSettings uid id gen_id form db) = set_admin_settings l db.
Proof.
  unfold updateSettings, upsert_admin_settings. tx_unfold.
  destruct (rls_check admin_settings_policies INSERT db uid _); cbn.
  2: { exists (admin_settings db). by destruct db. }
  destruct (key_in _ _ _); cbn; [|by eexists].
  destruct (forallb _ _ && _); cbn; [by eexists|].
  exists (admin_settings db). by destruct db.
Qed.

Lemma step_has_effect db req : step_effect parseFloat db req (step parseFloat db req).
Proof.
  destruct req as [NEW pid rid|u gen_id form|uid accountId updates
                  |uid id gen_id form|uid|uid]; cbn [step].
  - destruct (registration_keys_free db NEW pid rid) eqn:Hf.
    + rewrite insert_auth_user_ok by done. by constructor.
    + destruct (insert_auth_user_err _ _ _ _ Hf) as [e ->]. constructor.
  - destruct (handleSubmit_cases u gen_id form db) as [[-> _]|(d & Hp & Hd & -> & Hu)].
    + constructor.
    + by econstructor.
  - unfold updateMT5Account.
    destruct (update_mt5_accounts_cases db uid accountId updates) as [He|[Ha He]].
    + destruct (run _ db) as [[n|e] db']; cbn in *; subst; constructor.
    + destruct (run _ db) as [[n|e] db']; cbn in *; subst; by constructor.
  - destruct (updateSettings_frame uid id gen_id form db) as [l ->]. constructor.
  - constructor.
  - constructor.
Qed.

End ClientFacts.

(** ** Updates and inserts of Trading Accounts *)

(** C2. An update of a Trading Account by a caller without the admin role
    is refused by the policies, whatever it assigns: no row passes the
    USING expression and the table is left as it was. Whenever a request
    changes [current_balance], [profit_target_reached] or [commission_paid]
    of an existing account, it is an update issued by an administrator. *)
Theorem C2_only_admin_changes_account (parseFloat : string → option Z) (db : Database) :
  (∀ uid accountId updates,
     has_role db uid admin = false →
     (∀ r, rls_using mt5_accounts_policies UPDATE db uid r = false)
     ∧ snd (run (update_mt5_accounts uid accountId updates) db) = db
     ∧ snd (updateMT5Account uid accountId updates db) = db)
  ∧ (∀ req i r r',
       mt5_accounts db !! i = Some r →
       mt5_accounts (step parseFloat db req) !! i = Some r' →
       MT5Account.current_balance r' ≠ MT5Account.current_balance r
       ∨ MT5Account.profit_target_reached r' ≠ MT5Account.profit_target_reached r
       ∨ MT5Account.commission_paid r' ≠ MT5Account.commission_paid r →
       ∃ uid accountId updates,
         req = UpdateAccount uid accountId updates
         ∧ has_role db uid admin = true).
Proof.
  split.
  - intros uid accountId updates Ha.
    pose proof (update_by_non_admin db uid accountId updates Ha) as Hu.
    split; [intros r; by rewrite mt5_using_update|]. split; [done|].
    unfold updateMT5Account. by destruct (run _ db) as [[n|e] db'].
  - intros req i r r' Hr Hr' Hch.
    destruct (step_has_effect parseFloat db req)
      as [req|NEW pid rid Hf|u gen_id form d Hp Hd Hu|uid accountId updates Ha
         |uid id gen_id form l].
    + rewrite Hr in Hr'. injection Hr' as <-. by destruct Hch as [?|[?|?]].
    + cbn in Hr'. rewrite Hr in Hr'. injection Hr' as <-. by destruct Hch as [?|[?|?]].
    + cbn in Hr'. rewrite lookup_app_l in Hr' by (by eapply lookup_lt_Some).
      rewrite Hr in Hr'. injection Hr' as <-. by destruct Hch as [?|[?|?]].
    + by exists uid, accountId, updates.
    + cbn in Hr'. rewrite Hr in Hr'. injection Hr' as <-. by destruct Hch as [?|[?|?]].
Qed.

Lemma C2_witness :
  snd (run (update_mt5_accounts (Some Sample.alice) "acc-1"
              (PartialMT5Account.mk None None None None None None
                 (Some 999900) (Some false) (Some true)))
           Sample.db)
  = Sample.db.
Proof.
  apply (C2_only_admin_changes_account Sample.parseFloat Sample.db).
  vm_compute. reflexivity.
Defined.

(** C5. For a caller without the admin role, the WITH CHECK expressions
    for INSERT hold exactly when the owner of the new row is the caller.
    With another owner the insert fails and stores nothing (with the
    authorization error, when the amounts fit their columns); with the
    caller as owner the policies let the row through, and it is stored
    when its id is free and the owner is a registered identity. *)
Theorem C5_insert_own_account_only (db : Database) (u : UUID) (r : MT5Account.row) :
  has_role db (Some u) admin = false →
  (MT5Account.user_id r ≠ u →
     rls_check mt5_accounts_policies INSERT db (Some u) r = false
     ∧ (∃ e, run (insert_mt5_account (Some u) r) db = (Err e, db))
     ∧ (in_decimal_10_2 (MT5Account.initial_deposit r)
        && in_decimal_10_2 (MT5Account.current_balance r) = true →
        run (insert_mt5_account (Some u) r) db = (Err insufficient_privilege, db)))
  ∧ (MT5Account.user_id r = u →
       rls_check mt5_accounts_policies INSERT db (Some u) r = true
       ∧ fst (run (insert_mt5_account (Some u) r) db) ≠ Err insufficient_privilege
       ∧ (in_decimal_10_2 (MT5Account.initial_deposit r)
          && in_decimal_10_2 (MT5Account.current_balance r) = true →
          key_in MT5Account.id (MT5Account.id r) (mt5_accounts db) = false →
          key_in AuthUser.id u (auth_users db) = true →
          run (insert_mt5_account (Some u) r) db
          = (Ok tt, set_mt5_accounts (mt5_accounts db ++ [r]) db))).
Proof.
  intros Ha.
  assert (Hc : rls_check mt5_accounts_policies INSERT db (Some u) r
               = bool_decide (u = MT5Account.user_id r)).
  { rewrite mt5_check_insert, Ha. done. }
  rewrite insert_mt5_account_run, Hc. split.
  - intros Hne. rewrite bool_decide_eq_false_2 by congruence. cbn [negb].
    split; [done|]. split.
    + destruct (negb _); by eexists.
    + by intros ->.
  - intros <-. rewrite bool_decide_eq_true_2 by done. cbn [negb].
    split; [done|]. split.
    + by repeat match goal with
                | |- context [if ?b then _ else _] => destruct b
                end.
    + by intros -> -> ->.
Qed.

Lemma C5_witness :
  rls_check mt5_accounts_policies INSERT Sample.db (Some Sample.alice)
    Sample.account_bob = false
  ∧ run (insert_mt5_account (Some Sample.alice)
           (MT5Account.mk "acc-3" Sample.alice "789" "pw" "Demo"
              (Some 100000) (Some 100000) false false))
        Sample.db
    = (Ok tt,
       set_mt5_accounts
         (mt5_accounts Sample.db ++
            [MT5Account.mk "acc-3" Sample.alice "789" "pw" "Demo"
               (Some 100000) (Some 100000) false false])
         Sample.db).
Proof.
  split.
  - apply (C5_insert_own_account_only Sample.db Sample.alice Sample.account_bob);
      [vm_compute; reflexivity | discriminate].
  - apply (C5_insert_own_account_only Sample.db Sample.alice
             (MT5Account.mk "acc-3" Sample.alice "789" "pw" "Demo"
                (Some 100000) (Some 100000) false false));
      vm_compute; reflexivity.
Defined.

(** ** How a denial reaches the caller *)





(** ** Platform Settings *)

(** C9. A read of the Platform Settings is answered for every caller
    with all the rows of the table, and it leaves the store as it was; so
    two reads with no write in between, by any two callers, give the same
    values. *)
Theorem C9_settings_read_idempotent (db : Database) (uid uid' : option UUID) :
  run (select_admin_settings uid) db = (Ok (admin_settings db), db)
  ∧ snd (run (fetch_usdt_wallet_address uid) db) = db
  ∧ fst (run (fetch_usdt_wallet_address uid')
             (snd (run (fetch_usdt_wallet_address uid) db)))
    = fst (run (fetch_usdt_wallet_address uid) db)
  ∧ fst (run (select_admin_settings uid')
             (snd (run (select_admin_settings uid) db)))
    = fst (run (select_admin_settings uid) db).
Proof.
  assert (Hall : ∀ u, rls_select admin_settings_policies db u (admin_settings db)
                      = admin_settings db).
  { intros u. apply filter_all. intros r _. cbn. apply orb_true_r. }
  unfold fetch_usdt_wallet_address, select_admin_settings. tx_unfold. cbn.
  rewrite !Hall. done.
Qed.

(** ** Dashboard totals *)

Lemma totalProfit_from (accounts : list MT5Account.row) (start : Z) :
  fold_left (λ sum account,
               let profit := or0 (MT5Account.current_balance account)
                             - or0 (MT5Account.initial_deposit account) in
               sum + Z.max 0 profit)
            accounts start
  = start + spec_total_profit accounts.
Proof.
  revert start. induction accounts as [|a l IH]; intros start; cbn.
  - lia.
  - rewrite IH. lia.
Qed.

Lemma spec_total_profit_nonneg accounts : 0 ≤ spec_total_profit accounts.
Proof. induction accounts as [|a l IH]; cbn; lia. Qed.

Lemma spec_total_profit_app l1 l2 :
  spec_total_profit (l1 ++ l2) = spec_total_profit l1 + spec_total_profit l2.
Proof. induction l1 as [|a l IH]; cbn; lia. Qed.

(** C10. The Total Profit of the Dashboard is the sum over the accounts
    of max(0, current_balance - initial_deposit), missing values counting
    as 0. It is never negative, an account never lowers it, and an account
    whose balance does not exceed its deposit adds nothing to it. *)
Theorem C10_total_profit (accounts : list MT5Account.row) :
  totalProfit accounts = spec_total_profit accounts
  ∧ 0 ≤ totalProfit accounts
  ∧ (∀ l1 a l2,
       accounts = l1 ++ a :: l2 →
       totalProfit (l1 ++ l2) ≤ totalProfit accounts
       ∧ (or0 (MT5Account.current_balance a) ≤ or0 (MT5Account.initial_deposit a) →
          totalProfit accounts = totalProfit (l1 ++ l2))).
Proof.
  assert (Heq : ∀ l, totalProfit l = spec_total_profit l).
  { intros l. unfold totalProfit. rewrite totalProfit_from. lia. }
  split; [apply Heq|]. split.
  - rewrite Heq. apply spec_total_profit_nonneg.
  - intros l1 a l2 ->. rewrite !Heq, !spec_total_profit_app. cbn. split; lia.
Qed.

Lemma C10_witness :
  totalProfit [Sample.account_alice] ≤ totalProfit [Sample.account_alice; Sample.account_bob]
  ∧ (or0 (MT5Account.current_balance Sample.account_bob)
     ≤ or0 (MT5Account.initial_deposit Sample.account_bob) →
     totalProfit [Sample.account_alice; Sample.account_bob]
     = totalProfit [Sample.account_alice]).
Proof.
  destruct (C10_total_profit [Sample.account_alice; Sample.account_bob])
    as (_ & _ & Hdrop).
  apply (Hdrop [Sample.account_alice] Sample.account_bob []). reflexivity.
Defined.

(** ** Submission of a Trading Account and the badge *)

(** An administrator's update that assigns no key and only amounts that
    fit is carried out on the rows with the given id. *)
Lemma update_by_admin db uid accountId updates :
  has_role db uid admin = true →
  PartialMT5Account.id updates = None →
  PartialMT5Account.user_id updates = None →
  in_decimal_10_2 (PartialMT5Account.initial_deposit updates)
  && in_decimal_10_2 (PartialMT5Account.current_balance updates) = true →
  snd (run (update_mt5_accounts uid accountId updates) db)
  = set_mt5_accounts
      (map (λ r, if bool_decide (MT5Account.id r = accountId)
                 then apply_updates updates r else r)
           (mt5_accounts db))
      db
  ∧ ∃ n, fst (run (update_mt5_accounts uid accountId updates) db) = Ok n.
Proof.
  intros Ha Hid Hown Hfit.
  unfold update_mt5_accounts. tx_unfold. rewrite Hfit, Hid, Hown.
  rewrite (forallb_all _ _).
  2: { intros r _. rewrite mt5_check_update, mt5_using_select, Ha.
       apply orb_true_r. }
  cbn. split; [|by eexists]. f_equal. apply map_ext. intros r.
  rewrite update_target_admin, Ha. by rewrite andb_true_r.
Qed.

(** The row a submission stores and the badge of an account card: when
    [handleSubmit] reports success, one row has been added to the table,
    with the parsed deposit both as [initial_deposit] and as
    [current_balance] and both milestone flags false. The badge of a card
    reads "Commission Due" exactly when [profit_target_reached] is true and
    [commission_paid] is false, and once an administrator has checked
    "Commission Paid" on an account whose target is reached, the stored
    row's badge reads "Commission Paid". *)
Lemma submitted_row_and_badge (parseFloat : string → option Z) :
  (∀ u gen_id form db db',
     handleSubmit parseFloat u gen_id form db = (onAccountAdded, db') →
     ∃ owner d,
       u = Some owner
       ∧ parseFloat (initialDeposit form) = Some d
       ∧ 0 < d
       ∧ mt5_accounts db'
         = mt5_accounts db ++
             [MT5Account.mk gen_id owner (accountId form) (password form)
                (server form) (Some d) (Some d) false false])
  ∧ (∀ account,
       badge account = Some "Commission Due"
       ↔ MT5Account.profit_target_reached account = true
         ∧ MT5Account.commission_paid account = false)
  ∧ (∀ db uid i account,
       has_role db uid admin = true →
       mt5_accounts db !! i = Some account →
       MT5Account.profit_target_reached account = true →
       fst (onChange_commission_paid uid account true db) = toast_Account_updated
       ∧ ∃ account',
           mt5_accounts (snd (onChange_commission_paid uid account true db)) !! i
           = Some account'
           ∧ MT5Account.commission_paid account' = true
           ∧ badge account' = Some "Commission Paid").
Proof.
  split; [|split].
  - intros u gen_id form db db' Hs.
    destruct (handleSubmit_cases parseFloat u gen_id form db)
      as [[_ Hn]|(d & Hp & Hd & He & Hu)].
    { by rewrite Hs in Hn. }
    rewrite Hs in He. injection He as ->.
    destruct u as [owner|].
    + exists owner, d. done.
    + destruct (Hu (has_role_anonymous db admin)) as [? ?]. done.
  - intros [? ? ? ? ? ? ? ptr paid]. unfold badge. cbn.
    destruct ptr, paid; split; intros H; try done; by destruct H.
  - intros db uid i account Ha Hi Hptr.
    unfold onChange_commission_paid, updateMT5Account.
    destruct (update_by_admin db uid (MT5Account.id account)
                (PartialMT5Account.mk None None None None None None None None (Some true))
                Ha eq_refl eq_refl eq_refl) as [Hdb [n Hn]].
    destruct (run _ db) as [res db']. cbn in Hdb, Hn. subst res db'.
    split; [done|]. cbn.
    rewrite list_lookup_fmap, Hi. cbn.
    rewrite bool_decide_eq_true_2 by done.
    eexists. split; [done|]. unfold badge. cbn. by rewrite Hptr.
Qed.

(** C6, on the code. A caller without the admin role submits a Trading
    Account and an administrator checks "Profit Target Reached" on it. The
    stored row then has [profit_target_reached] true and [commission_paid]
    false, and its badge would read "Commission Due"; but the read of
    [Dashboard.fetchData] returns no row to the owner, whose Dashboard
    renders no account card and no badge. The Dashboard of the
    administrator renders one badge entry for each account the
    administrator owns. *)
Theorem C6_owner_dashboard_shows_no_badge (parseFloat : string → option Z)
    (db db' : Database) (u : UUID) (gen_id : UUID) (form : formData)
    (admin_uid : option UUID) :
  has_role db (Some u) admin = false →
  has_role db admin_uid admin = true →
  handleSubmit parseFloat (Some u) gen_id form db = (onAccountAdded, db') →
  let due :=
    step parseFloat db'
      (UpdateAccount admin_uid gen_id
         (PartialMT5Account.mk None None None None None None None (Some true) None)) in
  (∃ r, last (mt5_accounts due) = Some r
        ∧ MT5Account.id r = gen_id
        ∧ MT5Account.user_id r = u
        ∧ MT5Account.current_balance r = MT5Account.initial_deposit r
        ∧ MT5Account.profit_target_reached r = true
        ∧ MT5Account.commission_paid r = false
        ∧ badge r = Some "Commission Due")
  ∧ Dashboard_mt5Accounts (Some u) due = []
  ∧ Dashboard_badges (Some u) due = []
  ∧ Dashboard_badges admin_uid due
    = map badge
        (List.filter (λ r, sql_eq_uuid admin_uid (MT5Account.user_id r))
           (mt5_accounts due)).
Proof.
  intros Hu Ha Hs.
  destruct (handleSubmit_cases parseFloat (Some u) gen_id form db)
    as [[_ Hn]|(d & Hp & Hd & He & _)].
  { by rewrite Hs in Hn. }
  rewrite Hs in He. injection He as ->. cbn zeta. cbn [step].
  unfold updateMT5Account.
  destruct (update_by_admin
              (set_mt5_accounts
                 (mt5_accounts db ++ [submitted_row (default "" (Some u)) gen_id form d])
                 db)
              admin_uid gen_id
              (PartialMT5Account.mk None None None None None None None (Some true) None)
              Ha eq_refl eq_refl eq_refl) as [Hdb [n Hn]].
  destruct (run _ (set_mt5_accounts _ db)) as [res due]. cbn [fst snd] in Hdb, Hn.
  subst res due. cbn [snd]. split.
  - cbn [mt5_accounts set_mt5_accounts]. rewrite map_app. cbn [map].
    rewrite last_snoc. cbn [submitted_row MT5Account.id default].
    rewrite bool_decide_eq_true_2 by done. eexists. split; [done|]. done.
  - destruct (Dashboard_of_non_admin_is_empty
                (set_mt5_accounts
                   (map (λ r, if bool_decide (MT5Account.id r = gen_id)
                              then apply_updates
                                     (PartialMT5Account.mk None None None None None None
                                        None (Some true) None) r
                              else r)
                      (mt5_accounts db ++
                         [submitted_row (default "" (Some u)) gen_id form d]))
                   db)
                (Some u) Hu) as [H1 H2].
    split; [exact H1|]. split; [exact H2|].
    apply Dashboard_of_admin. exact Ha.
Qed.

Lemma C6_witness :
  let due :=
    step Sample.parseFloat
      (snd (handleSubmit Sample.parseFloat (Some Sample.alice) "acc-1" Sample.form_123
              (step Sample.parseFloat Sample.db_admin_only
                 (SignUp (AuthUser.mk Sample.alice (Some Sample.jane_meta)) "p-2" "r-3"))))
      (UpdateAccount (Some Sample.root) "acc-1"
         (PartialMT5Account.mk None None None None None None None (Some true) None)) in
  (∃ r, last (mt5_accounts due) = Some r
        ∧ MT5Account.id r = "acc-1"
        ∧ MT5Account.user_id r = Sample.alice
        ∧ MT5Account.current_balance r = MT5Account.initial_deposit r
        ∧ MT5Account.profit_target_reached r = true
        ∧ MT5Account.commission_paid r = false
        ∧ badge r = Some "Commission Due")
  ∧ Dashboard_mt5Accounts (Some Sample.alice) due = []
  ∧ Dashboard_badges (Some Sample.alice) due = []
  ∧ Dashboard_badges (Some Sample.root) due
    = map badge
        (List.filter (λ r, sql_eq_uuid (Some Sample.root) (MT5Account.user_id r))
           (mt5_accounts due)).
Proof.
  apply (C6_owner_dashboard_shows_no_badge Sample.parseFloat
           (step Sample.parseFloat Sample.db_admin_only
              (SignUp (AuthUser.mk Sample.alice (Some Sample.jane_meta)) "p-2" "r-3"))
           _ Sample.alice "acc-1" Sample.form_123 (Some Sample.root));
    vm_compute; reflexivity.
Defined.

(** ** The milestone flags over sequences of requests *)

Section WorkflowFacts.
Variable parseFloat : string → option Z.

Lemma step_keeps_profit_target db req i r :
  mt5_accounts db !! i = Some r →
  MT5Account.profit_target_reached r = true →
  unsets_profit_target db req r = false →
  ∃ r', mt5_accounts (step parseFloat db req) !! i = Some r'
        ∧ MT5Account.profit_target_reached r' = true.
Proof.
  intros Hi Hptr Hun.
  destruct (step_has_effect parseFloat db req)
    as [req|NEW pid rid Hf|u gen_id form d Hp Hd Hu|uid accountId updates Ha
       |uid id gen_id form l]; cbn.
  - by exists r.
  - by exists r.
  - exists r. by rewrite lookup_app_l by (by eapply lookup_lt_Some).
  - rewrite list_lookup_fmap, Hi. cbn. eexists. split; [done|].
    cbn in Hun. rewrite Ha in Hun. cbn in Hun.
    case_bool_decide as Hid; [|done]. cbn in *.
    destruct (PartialMT5Account.profit_target_reached updates) as [[|]|]; cbn;
      [done| |done].
    by rewrite bool_decide_eq_true_2 in Hun.
  - by exists r.
Qed.

Lemma steps_keep_profit_target reqs : ∀ db i r,
  mt5_accounts db !! i = Some r →
  MT5Account.profit_target_reached r = true →
  never_unsets parseFloat db i reqs →
  ∃ r', mt5_accounts (steps parseFloat db reqs) !! i = Some r'
        ∧ MT5Account.profit_target_reached r' = true.
Proof.
  induction reqs as [|req rest IH]; intros db i r Hi Hptr Hnever.
  - by exists r.
  - destruct Hnever as [Hreq Hrest].
    destruct (step_keeps_profit_target db req i r Hi Hptr (Hreq r Hi))
      as (r1 & Hi1 & Hptr1).
    exact (IH _ _ _ Hi1 Hptr1 Hrest).
Qed.

Lemma step_keeps_commission_rule db req :
  forallb commission_rule (mt5_accounts db) = true →
  breaks_commission_rule db req = false →
  forallb commission_rule (mt5_accounts (step parseFloat db req)) = true.
Proof.
  intros Hrule Hbr.
  destruct (step_has_effect parseFloat db req)
    as [req|NEW pid rid Hf|u gen_id form d Hp Hd Hu|uid accountId updates Ha
       |uid id gen_id form l]; cbn; try done.
  - rewrite forallb_app, Hrule. done.
  - cbn in Hbr. rewrite Ha in Hbr. cbn in Hbr.
    rewrite forallb_forall in Hrule. rewrite forallb_forall.
    intros r' Hr'. apply in_map_iff in Hr' as (r & <- & Hr).
    case_bool_decide as Hid; [|by apply Hrule].
    destruct (commission_rule (apply_updates updates r)) eqn:Hc; [done|].
    assert (Hex : existsb (λ r, bool_decide (MT5Account.id r = accountId)
                              && negb (commission_rule (apply_updates updates r)))
                          (mt5_accounts db) = true).
    { apply existsb_exists. exists r. split; [done|].
      by rewrite bool_decide_eq_true_2, Hc. }
    by rewrite Hex in Hbr.
Qed.

Lemma steps_keep_commission_rule reqs : ∀ db,
  forallb commission_rule (mt5_accounts db) = true →
  never_breaks parseFloat db reqs →
  forallb commission_rule (mt5_accounts (steps parseFloat db reqs)) = true.
Proof.
  induction reqs as [|req rest IH]; intros db Hrule Hnever; [done|].
  destruct Hnever as [Hreq Hrest].
  apply IH; [|done]. by apply step_keeps_commission_rule.
Qed.

End WorkflowFacts.

(** C7, on the code: after a registration and a submission, the
    administrator checks "Profit Target Reached" on the new account and
    then unchecks it; the stored flag is true after the first update and
    false after the second. *)
Lemma C7_flag_is_reset_by_unchecking :
  let reached :=
    steps Sample.parseFloat Sample.db_admin_only
      [SignUp (AuthUser.mk Sample.alice (Some Sample.jane_meta)) "p-2" "r-3";
       SubmitAccount (Some Sample.alice) "acc-1" Sample.form_123;
       UpdateAccount (Some Sample.root) "acc-1" (Sample.set_flag_target true)] in
  (MT5Account.profit_target_reached <$> mt5_accounts reached !! 0%nat) = Some true
  ∧ (MT5Account.profit_target_reached
       <$> mt5_accounts
             (snd (onChange_profit_target_reached (Some Sample.root)
                     (MT5Account.mk "acc-1" Sample.alice "123" "secret" "Demo"
                        (Some 100000) (Some 100000) true false)
                     false reached))
           !! 0%nat)
    = Some false.
Proof. vm_compute. split; reflexivity. Qed.

(** C7, amended. Once [profit_target_reached] of a Trading Account is
    true it stays true along every sequence of requests in which no
    administrator's update of that account assigns
    [profit_target_reached := false]; a request that does unset it is such
    an update by a caller who holds the admin role. *)
Theorem C7_flag_kept_unless_admin_unsets (parseFloat : string → option Z)
    (db : Database) (i : nat) (r : MT5Account.row) (reqs : list request) :
  mt5_accounts db !! i = Some r →
  MT5Account.profit_target_reached r = true →
  (never_unsets parseFloat db i reqs →
     ∃ r', mt5_accounts (steps parseFloat db reqs) !! i = Some r'
           ∧ MT5Account.profit_target_reached r' = true)
  ∧ (∀ req, unsets_profit_target db req r = true →
       ∃ uid updates,
         req = UpdateAccount uid (MT5Account.id r) updates
         ∧ has_role db uid admin = true
         ∧ PartialMT5Account.profit_target_reached updates = Some false).
Proof.
  intros Hi Hptr. split.
  - intros Hnever. exact (steps_keep_profit_target parseFloat reqs db i r Hi Hptr Hnever).
  - intros [| |uid accountId updates| | |] Hun; try done.
    cbn in Hun. apply andb_true_iff in Hun as [Hun Hf].
    apply andb_true_iff in Hun as [Ha Hid].
    apply bool_decide_eq_true in Hid as <-. apply bool_decide_eq_true in Hf.
    by exists uid, updates.
Qed.

Lemma C7_witness :
  ∃ r', mt5_accounts
          (steps Sample.parseFloat Sample.db
             [UpdateAccount (Some Sample.root) "acc-1" (Sample.set_flag_paid true);
              UpdateAccount (Some Sample.bob) "acc-1" (Sample.set_flag_target false);
              SubmitAccount (Some Sample.bob) "acc-3" Sample.form_123])
        !! 0%nat = Some r'
        ∧ MT5Account.profit_target_reached r' = true.
Proof.
  apply (C7_flag_kept_unless_admin_unsets Sample.parseFloat Sample.db 0
           Sample.account_alice).
  - reflexivity.
  - reflexivity.
  - cbn [never_unsets]. repeat split; intros r' Hr'; vm_compute in Hr';
      injection Hr' as <-; vm_compute; reflexivity.
Defined.








(** ** Registration *)

Lemma key_in_false {A} (f : A → UUID) x (l : list A) :
  key_in f x l = false → ∀ r, r ∈ l → f r ≠ x.
Proof.
  unfold key_in. intros Hk r Hr Heq.
  assert (existsb (λ r, bool_decide (f r = x)) l = true) as Ht.
  { apply existsb_exists. exists r. split; [by apply list_elem_of_In|].
    by apply bool_decide_eq_true. }
  by rewrite Ht in Hk.
Qed.

Lemma filter_key_none {A} (f : A → UUID) x (l : list A) :
  (∀ r, r ∈ l → f r ≠ x) → List.filter (λ r, bool_decide (f r = x)) l = [].
Proof.
  intros Hn. apply filter_none. intros r Hr.
  apply bool_decide_eq_false. by apply Hn.
Qed.

Lemma consistent_frame db db' :
  auth_users db' = auth_users db →
  profiles db' = profiles db →
  user_roles db' = user_roles db →
  consistent db → consistent db'.
Proof.
  intros Ha Hp Hr [[Hfp Hfr] Hreg].
  unfold consistent, references_ok, every_identity_registered, profiles_of, roles_of.
  rewrite Ha, Hp, Hr. done.
Qed.

(** After a registration with free keys the new identity has exactly the
    Profile and the Role Assignment the trigger wrote. *)
Lemma after_registration_rows db NEW profile_id role_id :
  references_ok db →
  registration_keys_free db NEW profile_id role_id = true →
  profiles_of (after_registration db NEW profile_id role_id) (AuthUser.id NEW)
  = [Profile.mk profile_id (AuthUser.id NEW)
       (match json_get_text (AuthUser.raw_user_meta_data NEW) "full_name" with
        | Some s => s
        | None => ""
        end)
       (match json_get_text (AuthUser.raw_user_meta_data NEW) "telegram_handle" with
        | Some s => s
        | None => ""
        end)]
  ∧ roles_of (after_registration db NEW profile_id role_id) (AuthUser.id NEW)
    = [UserRole.mk role_id (AuthUser.id NEW) user].
Proof.
  intros [_ Hfr]. unfold registration_keys_free. rewrite !andb_true_iff, !negb_true_iff.
  intros [[[[Hnew _] Hprof] _] _].
  unfold profiles_of, roles_of, after_registration. cbn.
  rewrite !List.filter_app. cbn. rewrite !bool_decide_eq_true_2 by done.
  rewrite (filter_key_none Profile.user_id) by (by apply key_in_false).
  rewrite (filter_key_none UserRole.user_id); [done|].
  intros r Hr Heq. specialize (Hfr r Hr). rewrite Heq in Hfr. congruence.
Qed.

Lemma consistent_after_registration db NEW profile_id role_id :
  consistent db →
  registration_keys_free db NEW profile_id role_id = true →
  consistent (after_registration db NEW profile_id role_id).
Proof.
  intros [Href Hreg] Hfree.
  destruct (after_registration_rows db NEW profile_id role_id Href Hfree) as [Hp Hr].
  assert (Hnew : key_in AuthUser.id (AuthUser.id NEW) (auth_users db) = false).
  { unfold registration_keys_free in Hfree.
    rewrite !andb_true_iff, !negb_true_iff in Hfree. tauto. }
  split.
  - destruct Href as [Hfp Hfr]. split; cbn; intros x Hx;
      apply elem_of_app in Hx as [Hx|Hx%list_elem_of_singleton];
      rewrite key_in_app; apply orb_true_iff.
    + left. by apply Hfp.
    + right. subst x. unfold key_in. cbn. by rewrite bool_decide_eq_true_2.
    + left. by apply Hfr.
    + right. subst x. unfold key_in. cbn. by rewrite bool_decide_eq_true_2.
  - intros a Ha. cbn in Ha. apply elem_of_app in Ha as [Ha|Ha%list_elem_of_singleton].
    + pose proof (key_in_false _ _ _ Hnew a Ha) as Hne.
      destruct (Hreg a Ha) as [H1 Hne2].
      unfold profiles_of, roles_of, after_registration in *. cbn.
      rewrite !List.filter_app. cbn.
      rewrite !bool_decide_eq_false_2 by congruence.
      rewrite !app_nil_r. done.
    + subst a. rewrite Hp, Hr. done.
Qed.

Lemma step_consistent parseFloat db req :
  consistent db → consistent (step parseFloat db req).
Proof.
  intros Hc.
  destruct (step_has_effect parseFloat db req)
    as [req|NEW pid rid Hf|u gen_id form d Hp Hd Hu|uid accountId updates Ha
       |uid id gen_id form l].
  - done.
  - by apply consistent_after_registration.
  - by apply (consistent_frame db).
  - by apply (consistent_frame db).
  - by apply (consistent_frame db).
Qed.

Lemma steps_consistent parseFloat reqs : ∀ db,
  consistent db → consistent (steps parseFloat db reqs).
Proof.
  induction reqs as [|req rest IH]; intros db Hc; [done|].
  apply IH. by apply step_consistent.
Qed.

(** The store the migration leaves has no identity yet. *)
Lemma initial_database_consistent settings_id :
  consistent (initial_database settings_id).
Proof.
  split; [split|]; intros x Hx; cbn in Hx; by apply elem_of_nil in Hx.
Qed.

(** C4. In a store where every identity has its Profile and a role, the
    insert of a new identity and the trigger form one transaction. With
    free keys it succeeds whatever the metadata holds, and afterwards the
    new identity has exactly one Profile, with [full_name] and
    [telegram_handle] read from the metadata and the empty string for a
    missing one, and exactly one Role Assignment, with role [user];
    otherwise it fails and the store is left as it was. Every identity
    keeps exactly one Profile and at least one role along every sequence
    of requests. *)
Theorem C4_registration (parseFloat : string → option Z) (db : Database)
    (NEW : AuthUser.row) (profile_id role_id : UUID) :
  consistent db →
  (registration_keys_free db NEW profile_id role_id = true →
     run (insert_auth_user NEW profile_id role_id) db
     = (Ok tt, after_registration db NEW profile_id role_id)
     ∧ profiles_of (after_registration db NEW profile_id role_id) (AuthUser.id NEW)
       = [Profile.mk profile_id (AuthUser.id NEW)
            (match json_get_text (AuthUser.raw_user_meta_data NEW) "full_name" with
             | Some s => s
             | None => ""
             end)
            (match json_get_text (AuthUser.raw_user_meta_data NEW) "telegram_handle" with
             | Some s => s
             | None => ""
             end)]
     ∧ roles_of (after_registration db NEW profile_id role_id) (AuthUser.id NEW)
       = [UserRole.mk role_id (AuthUser.id NEW) user])
  ∧ (registration_keys_free db NEW profile_id role_id = false →
       ∃ e, run (insert_auth_user NEW profile_id role_id) db = (Err e, db))
  ∧ (∀ reqs, consistent (steps parseFloat db reqs)).
Proof.
  intros Hc. split; [|split].
  - intros Hfree. split; [by apply insert_auth_user_ok|].
    apply after_registration_rows; [apply Hc | done].
  - apply insert_auth_user_err.
  - intros reqs. by apply steps_consistent.
Qed.

Lemma C4_witness :
  run (insert_auth_user (AuthUser.mk Sample.alice (Some Sample.jane_meta)) "p-1" "r-1")
      (initial_database "s-1")
  = (Ok tt,
     mkDatabase
       [AuthUser.mk Sample.alice (Some Sample.jane_meta)]
       [Profile.mk "p-1" Sample.alice "Jane" "@jane"]
       []
       [UserRole.mk "r-1" Sample.alice user]
       (admin_settings (initial_database "s-1")))
  ∧ run (insert_auth_user (AuthUser.mk Sample.bob None) "p-1" "r-1")
        (initial_database "s-1")
    = (Ok tt,
       mkDatabase
         [AuthUser.mk Sample.bob None]
         [Profile.mk "p-1" Sample.bob "" ""]
         []
         [UserRole.mk "r-1" Sample.bob user]
         (admin_settings (initial_database "s-1"))).
Proof.
  split.
  - apply (C4_registration Sample.parseFloat (initial_database "s-1")
             (AuthUser.mk Sample.alice (Some Sample.jane_meta)) "p-1" "r-1").
    + split; [split|]; intros x Hx; cbn in Hx; by apply elem_of_nil in Hx.
    + vm_compute. reflexivity.
  - apply (C4_registration Sample.parseFloat (initial_database "s-1")
             (AuthUser.mk Sample.bob None) "p-1" "r-1").
    + split; [split|]; intros x Hx; cbn in Hx; by apply elem_of_nil in Hx.
    + vm_compute. reflexivity.
Defined.

(** The sample store, with its administrator, is consistent as well. *)
Example sample_db_consistent : consistent Sample.db.
Proof.
  split; [split|]; intros x Hx; cbn in Hx;
    repeat (apply elem_of_cons in Hx as [->|Hx]);
    try (by apply elem_of_nil in Hx); vm_compute; try done; split; done.
Qed.

(** ** The scenario of the specification, run on the model

    Jane registers, submits account "123" on server "Demo" with a deposit
    of 1000; the administrator sets the balance to 2000 and checks "Profit
    Target Reached", then checks "Commission Paid". The badge of the stored
    row goes from none to "Commission Due" to "Commission Paid", as the
    administrator's read shows; Jane's own Dashboard receives no row. *)
Example scenario :
  let s1 := steps Sample.parseFloat Sample.db_admin_only
              [SignUp (AuthUser.mk Sample.alice (Some Sample.jane_meta)) "p-2" "r-3"] in
  let s2 := step Sample.parseFloat s1
              (SubmitAccount (Some Sample.alice) "acc-1"
                 (mkFormData "123" "secret" "Demo" "1000")) in
  let s3 := steps Sample.parseFloat s2
              [UpdateAccount (Some Sample.root) "acc-1"
                 (PartialMT5Account.mk None None None None None None
                    (Some 200000) None None);
               UpdateAccount (Some Sample.root) "acc-1" (Sample.set_flag_target true)] in
  let s4 := step Sample.parseFloat s3
              (UpdateAccount (Some Sample.root) "acc-1" (Sample.set_flag_paid true)) in
  profiles_of s1 Sample.alice = [Profile.mk "p-2" Sample.alice "Jane" "@jane"]
  ∧ roles_of s1 Sample.alice = [UserRole.mk "r-3" Sample.alice user]
  ∧ mt5_accounts s2
    = [MT5Account.mk "acc-1" Sample.alice "123" "secret" "Demo"
         (Some 100000) (Some 100000) false false]
  ∧ map badge (mt5_accounts s2) = [None]
  ∧ Dashboard_badges (Some Sample.root) s3 = []
  ∧ map badge (mt5_accounts s3) = [Some "Commission Due"]
  ∧ map badge (mt5_accounts s4) = [Some "Commission Paid"]
  ∧ fst (run (select_mt5_accounts (Some Sample.root)) s4) = Ok (mt5_accounts s4)
  ∧ Dashboard_badges (Some Sample.alice) s4 = [].
Proof. vm_compute. repeat split. Qed.

(** * Further properties of the code *)

(** ** Platform Settings: writes *)

Lemma settings_check_insert db uid r :
  rls_check admin_settings_policies INSERT db uid r = has_role db uid admin.
Proof. cbn. apply orb_false_r. Qed.

Lemma settings_check_update db uid r :
  rls_check admin_settings_policies UPDATE db uid r = has_role db uid admin.
Proof. cbn. apply orb_false_r. Qed.

Lemma settings_using_update db uid r :
  rls_using admin_settings_policies UPDATE db uid r = has_role db uid admin.
Proof. cbn. apply orb_false_r. Qed.

Lemma settings_using_select db uid r :
  rls_using admin_settings_policies SELECT db uid r = true.
Proof. cbn. apply orb_true_r. Qed.

Lemma settings_select_all db uid rows :
  rls_select admin_settings_policies db uid rows = rows.
Proof. apply filter_all. intros r _. apply settings_using_select. Qed.

Lemma settings_write_needs_admin_aux db uid id gen_id form :
  has_role db uid admin = false →
  updateSettings uid id gen_id form db = (toast_Error insufficient_privilege, db).
Proof.
  intros Ha. unfold updateSettings, upsert_admin_settings. tx_unfold.
  by rewrite settings_check_insert, Ha.
Qed.

(** X1. [updateSettings] by a caller without the admin role is answered
    with the authorization error and changes nothing, whatever the form
    holds and whether or not a settings row is known to the page. *)
Theorem settings_write_needs_admin (db : Database) (uid id : option UUID)
    (gen_id : UUID) (form : settingsForm) :
  has_role db uid admin = false →
  updateSettings uid id gen_id form db = (toast_Error insufficient_privilege, db).
Proof. apply settings_write_needs_admin_aux. Qed.

Lemma settings_write_needs_admin_witness :
  updateSettings (Some Sample.alice) (Some "s-1") "s-2"
    (mkSettingsForm "https://example.org" "TXYZ" "bot") Sample.db
  = (toast_Error insufficient_privilege, Sample.db).
Proof.
  apply (settings_write_needs_admin Sample.db (Some Sample.alice)).
  vm_compute. reflexivity.
Defined.

(** X2. When the table holds one settings row and the administrator
    saves the form under that row's id, the row is replaced by the form's
    values, the table still holds one row, and the next settings read of
    any caller returns the saved wallet address and partner link. *)
Theorem settings_save_then_read (db : Database) (uid : option UUID)
    (r : AdminSettings.row) (gen_id : UUID) (form : settingsForm) :
  has_role db uid admin = true →
  admin_settings db = [r] →
  let after := snd (updateSettings uid (Some (AdminSettings.id r)) gen_id form db) in
  fst (updateSettings uid (Some (AdminSettings.id r)) gen_id form db)
  = toast_Settings_updated
  ∧ admin_settings after
    = [AdminSettings.mk (AdminSettings.id r)
         (Some (form_fbs_partner_link form))
         (Some (form_usdt_wallet_address form))
         (Some (form_telegram_bot_username form))]
  ∧ ∀ caller,
      fst (run (fetch_usdt_wallet_address caller) after)
      = Ok (Ok (Some (form_usdt_wallet_address form)))
      ∧ fst (run (fetch_fbs_partner_link caller) after)
        = Ok (Ok (Some (form_fbs_partner_link form))).
Proof.
  intros Ha Hr.
  assert (Hrun : updateSettings uid (Some (AdminSettings.id r)) gen_id form db
                 = (toast_Settings_updated,
                    set_admin_settings
                      [AdminSettings.mk (AdminSettings.id r)
                         (Some (form_fbs_partner_link form))
                         (Some (form_usdt_wallet_address form))
                         (Some (form_telegram_bot_username form))] db)).
  { unfold updateSettings, upsert_admin_settings. tx_unfold.
    rewrite settings_check_insert, Ha, Hr. cbn [default AdminSettings.id].
    unfold key_in. cbn [existsb forallb map].
    rewrite settings_check_update, settings_using_update, settings_using_select, Ha.
    rewrite !bool_decide_eq_true_2 by done. reflexivity. }
  cbn zeta. rewrite Hrun. cbn [fst snd]. split; [done|]. split; [done|].
  intros caller. unfold fetch_usdt_wallet_address, fetch_fbs_partner_link,
    select_admin_settings. tx_unfold.
  rewrite !settings_select_all. done.
Qed.

Lemma settings_save_then_read_witness :
  fst (run (fetch_usdt_wallet_address (Some Sample.alice))
           (snd (updateSettings (Some Sample.root) (Some "s-1") "s-2"
                   (mkSettingsForm "https://example.org" "TXYZ" "bot") Sample.db)))
  = Ok (Ok (Some "TXYZ")).
Proof.
  apply (settings_save_then_read Sample.db (Some Sample.root)
           (AdminSettings.mk "s-1" (Some "https://fbs.com/partner-link")
              (Some "TBD_USDT_ADDRESS") (Some "your_telegram_bot"))
           "s-2" (mkSettingsForm "https://example.org" "TXYZ" "bot"));
    vm_compute; reflexivity.
Defined.

(** X3. When the page knows no settings row ([adminSettings?.id] is
    undefined) although the table holds one, the administrator's save
    inserts a second row under the fresh id; from then on every
    [.single()] read of the settings fails with PGRST116, so no caller gets
    the wallet address or the partner link. *)
Theorem settings_save_without_id_adds_row (db : Database) (uid : option UUID)
    (r : AdminSettings.row) (gen_id : UUID) (form : settingsForm) :
  has_role db uid admin = true →
  admin_settings db = [r] →
  gen_id ≠ AdminSettings.id r →
  let after := snd (updateSettings uid None gen_id form db) in
  fst (updateSettings uid None gen_id form db) = toast_Settings_updated
  ∧ admin_settings after
    = [r; AdminSettings.mk gen_id
            (Some (form_fbs_partner_link form))
            (Some (form_usdt_wallet_address form))
            (Some (form_telegram_bot_username form))]
  ∧ ∀ caller,
      fst (run (fetch_usdt_wallet_address caller) after) = Ok (Err PGRST116)
      ∧ fst (run (fetch_fbs_partner_link caller) after) = Ok (Err PGRST116).
Proof.
  intros Ha Hr Hne.
  assert (Hrun : updateSettings uid None gen_id form db
                 = (toast_Settings_updated,
                    set_admin_settings
                      [r; AdminSettings.mk gen_id
                            (Some (form_fbs_partner_link form))
                            (Some (form_usdt_wallet_address form))
                            (Some (form_telegram_bot_username form))] db)).
  { unfold updateSettings, upsert_admin_settings. tx_unfold.
    rewrite settings_check_insert, Ha, Hr. cbn [default AdminSettings.id].
    unfold key_in. cbn [existsb].
    rewrite bool_decide_eq_false_2 by congruence. reflexivity. }
  cbn zeta. rewrite Hrun. cbn [fst snd]. split; [done|]. split; [done|].
  intros caller. unfold fetch_usdt_wallet_address, fetch_fbs_partner_link,
    select_admin_settings. tx_unfold.
  rewrite !settings_select_all. done.
Qed.

Lemma settings_save_without_id_adds_row_witness :
  fst (run (fetch_usdt_wallet_address (Some Sample.alice))
           (snd (updateSettings (Some Sample.root) None "s-2"
                   (mkSettingsForm "https://example.org" "TXYZ" "bot") Sample.db)))
  = Ok (Err PGRST116).
Proof.
  apply (settings_save_without_id_adds_row Sample.db (Some Sample.root)
           (AdminSettings.mk "s-1" (Some "https://fbs.com/partner-link")
              (Some "TBD_USDT_ADDRESS") (Some "your_telegram_bot"))
           "s-2" (mkSettingsForm "https://example.org" "TXYZ" "bot"));
    [vm_compute; reflexivity | vm_compute; reflexivity | discriminate].
Defined.

(** ** Profiles: the Dashboard greeting and the Admin user names *)

Lemma profiles_using_select db uid p :
  rls_using profiles_policies SELECT db uid p
  = sql_eq_uuid uid (Profile.user_id p) || has_role db uid admin.
Proof.
  cbn. destruct (sql_eq_uuid uid (Profile.user_id p)), (has_role db uid admin); done.
Qed.

(** Own rows pass the policies, so the policies drop nothing from a read
    that asks for the caller's own profile. *)
Lemma own_profile_rows db u (rows : list Profile.row) :
  List.filter (λ r, sql_eq_uuid (Some u) (Profile.user_id r))
    (List.filter (rls_using profiles_policies SELECT db (Some u)) rows)
  = List.filter (λ p, bool_decide (Profile.user_id p = u)) rows.
Proof.
  induction rows as [|p l IH]; [done|].
  assert (Heq : sql_eq_uuid (Some u) (Profile.user_id p)
                = bool_decide (Profile.user_id p = u)).
  { cbn. apply bool_decide_ext. split; congruence. }
  cbn [List.filter]. rewrite profiles_using_select, Heq.
  destruct (bool_decide (Profile.user_id p = u)) eqn:Hb; cbn [orb].
  - cbn [List.filter]. by rewrite Heq, IH.
  - destruct (has_role db (Some u) admin); [|done].
    cbn [List.filter]. by rewrite Heq, IH.
Qed.

Lemma Dashboard_profile_spec db u :
  Dashboard_profile (Some u) db
  = match profiles_of db u with
    | [p] => Ok (Some p)
    | _ => Ok None
    end.
Proof.
  unfold Dashboard_profile, select_profiles_eq_user_id, rls_select. tx_unfold.
  cbn [fst]. rewrite own_profile_rows. unfold profiles_of.
  by destruct (List.filter _ (profiles db)) as [|p [|q l]].
Qed.

(** X4. The Dashboard's profile query returns the caller's own profile
    and no other: in a consistent store every registered identity gets
    exactly its Profile; whatever the store holds, a profile that is
    returned is owned by the caller; an anonymous caller gets none. *)
Theorem Dashboard_profile_is_own (db : Database) :
  (∀ a, consistent db → a ∈ auth_users db →
        ∃ p, Dashboard_profile (Some (AuthUser.id a)) db = Ok (Some p)
             ∧ Profile.user_id p = AuthUser.id a
             ∧ p ∈ profiles db)
  ∧ (∀ caller p, Dashboard_profile caller db = Ok (Some p) →
                 caller = Some (Profile.user_id p) ∧ p ∈ profiles db)
  ∧ Dashboard_profile None db = Ok None.
Proof.
  assert (Hin : ∀ u p, profiles_of db u = [p] → Profile.user_id p = u ∧ p ∈ profiles db).
  { intros u p Hp. assert (In p (profiles_of db u)) as Hi by (rewrite Hp; by left).
    apply filter_In in Hi as [Hi Heq]. apply bool_decide_eq_true in Heq.
    split; [done | by apply list_elem_of_In]. }
  split; [|split].
  - intros a [_ Hreg] Ha. destruct (Hreg a Ha) as [Hlen _].
    rewrite Dashboard_profile_spec.
    destruct (profiles_of db (AuthUser.id a)) as [|p [|q l]] eqn:Hp; try done.
    exists p. split; [done|]. by apply Hin.
  - intros [u|] p Hd.
    + rewrite Dashboard_profile_spec in Hd.
      destruct (profiles_of db u) as [|p' [|q l]] eqn:Hp; try done.
      injection Hd as ->. destruct (Hin u p Hp) as [<- ?]. done.
    + unfold Dashboard_profile, select_profiles_eq_user_id in Hd. tx_unfold.
      cbn [fst] in Hd. rewrite filter_none in Hd by done. done.
  - unfold Dashboard_profile, select_profiles_eq_user_id. tx_unfold.
    cbn [fst]. by rewrite filter_none.
Qed.

Lemma Dashboard_profile_is_own_witness :
  ∃ p, Dashboard_profile (Some Sample.alice) Sample.db = Ok (Some p)
       ∧ Profile.user_id p = Sample.alice
       ∧ p ∈ profiles Sample.db.
Proof.
  destruct (Dashboard_profile_is_own Sample.db) as [Hown _].
  apply (Hown (AuthUser.mk Sample.alice (Some Sample.jane_meta))).
  - split; [split|]; intros x Hx; cbn in Hx;
      repeat (apply elem_of_cons in Hx as [->|Hx]);
      try (by apply elem_of_nil in Hx); vm_compute; try done; split; done.
  - vm_compute. right. left.
Defined.

(** X5. Registration and the Dashboard together: after a registration
    that went through, the new identity's Dashboard finds the Profile the
    trigger wrote and greets with the [full_name] of the metadata, or with
    "Trader" when the metadata has none or an empty one. *)
Theorem greeting_after_registration (db : Database) (NEW : AuthUser.row)
    (profile_id role_id : UUID) :
  consistent db →
  registration_keys_free db NEW profile_id role_id = true →
  ∃ p,
    Dashboard_profile (Some (AuthUser.id NEW))
      (snd (run (insert_auth_user NEW profile_id role_id) db))
    = Ok (Some p)
    ∧ Profile.id p = profile_id
    ∧ welcome_name (Some p)
      = match json_get_text (AuthUser.raw_user_meta_data NEW) "full_name" with
        | Some s => if falsy s then "Trader" else s
        | None => "Trader"
        end.
Proof.
  intros [Href _] Hfree. rewrite insert_auth_user_ok by done. cbn [snd].
  destruct (after_registration_rows db NEW profile_id role_id Href Hfree) as [Hp _].
  rewrite Dashboard_profile_spec, Hp. eexists. split; [done|]. split; [done|].
  unfold welcome_name. cbn [Profile.full_name].
  by destruct (json_get_text _ "full_name").
Qed.

Lemma greeting_after_registration_witness :
  ∃ p,
    Dashboard_profile (Some Sample.bob)
      (snd (run (insert_auth_user (AuthUser.mk Sample.bob None) "p-1" "r-1")
                (initial_database "s-1")))
    = Ok (Some p)
    ∧ Profile.id p = "p-1"
    ∧ welcome_name (Some p) = "Trader".
Proof.
  apply (greeting_after_registration (initial_database "s-1")
           (AuthUser.mk Sample.bob None) "p-1" "r-1").
  - split; [split|]; intros x Hx; cbn in Hx; by apply elem_of_nil in Hx.
  - vm_compute. reflexivity.
Defined.

Lemma find_head_filter {A} (f : A → bool) (l : list A) :
  List.find f l = head (List.filter f l).
Proof.
  induction l as [|a l IH]; [done|]. cbn. by destruct (f a).
Qed.

Lemma profiles_select_admin db uid :
  has_role db uid admin = true →
  rls_select profiles_policies db uid (profiles db) = profiles db.
Proof.
  intros Ha. apply filter_all. intros p _.
  rewrite profiles_using_select, Ha. apply orb_true_r.
Qed.

(** X6. On the Admin page an account card names its owner by the
    [full_name] of the owner's first Profile; the owner is shown as
    "Unknown User" when it has no Profile or when the name is empty, as it
    is for an identity registered without a name. *)
Theorem getUserNameById_of_profiles (getUserById_email : UUID → option string)
    (db : Database) (uid : option UUID) (userId : UUID) :
  has_role db uid admin = true →
  getUserNameById (Admin_users getUserById_email uid db) userId
  = match head (profiles_of db userId) with
    | Some p => if falsy (Profile.full_name p) then "Unknown User"
                else Profile.full_name p
    | None => "Unknown User"
    end.
Proof.
  intros Ha. unfold getUserNameById, Admin_users, select_profiles. tx_unfold.
  cbn [fst]. rewrite profiles_select_admin by done.
  unfold profiles_of, usersWithEmails. rewrite <- find_head_filter.
  induction (profiles db) as [|p l IH]; [done|].
  cbn [map List.find AdminUser.id].
  destruct (bool_decide (Profile.user_id p = userId)); [done | exact IH].
Qed.

Lemma getUserNameById_of_profiles_witness :
  getUserNameById (Admin_users (λ _, None) (Some Sample.root) Sample.db) Sample.alice
  = "Jane"
  ∧ getUserNameById (Admin_users (λ _, None) (Some Sample.root) Sample.db) Sample.bob
    = "Unknown User".
Proof.
  split.
  - apply (getUserNameById_of_profiles (λ _, None) Sample.db (Some Sample.root)
             Sample.alice).
    vm_compute. reflexivity.
  - apply (getUserNameById_of_profiles (λ _, None) Sample.db (Some Sample.root)
             Sample.bob).
    vm_compute. reflexivity.
Defined.

(** ** Sign-up form *)

Lemma falsy_false s : falsy s = false ↔ s ≠ "".
Proof. unfold falsy. apply bool_decide_eq_false. Qed.

(** X7. [handleSignup] calls [signUp] only for a form whose name, email,
    handle and password are filled in and whose password has at least six
    UTF-16 code units and equals its confirmation, with the radio group on
    a value other than the empty one; on "no" it does so only when
    [window.open] threw on the partner link. The Profile the trigger then
    writes carries the form's name and handle. *)
Theorem handleSignup_registers_form_values (window_open : string → bool)
    (form : signupForm) (hasAccount : string) (uid : option UUID) (db0 : Database)
    (e pw : string) (data : gmap string json) :
  handleSignup window_open form hasAccount uid db0 = signup_signUp e pw data →
  (fullName form ≠ "" ∧ telegramHandle form ≠ "" ∧ e = email form ∧ e ≠ ""
   ∧ pw = signup_password form ∧ pw = confirmPassword form
   ∧ (6 ≤ utf16_length pw)%nat ∧ hasAccount ≠ ""
   ∧ (hasAccount = "no" → window_open (partnerLink uid db0) = false))
  ∧ ∀ db new_id profile_id role_id,
      registration_keys_free db (signUp_row new_id data) profile_id role_id = true →
      profiles (snd (run (insert_auth_user (signUp_row new_id data) profile_id role_id) db))
      = profiles db ++
          [Profile.mk profile_id new_id (fullName form) (telegramHandle form)].
Proof.
  unfold handleSignup.
  destruct (falsy (fullName form) || falsy (email form) || falsy (telegramHandle form)
            || falsy (signup_password form)) eqn:Hm; [done|].
  apply orb_false_iff in Hm as [Hm Hpw]. apply orb_false_iff in Hm as [Hm Hth].
  apply orb_false_iff in Hm as [Hfn Hem].
  apply falsy_false in Hfn, Hem, Hth, Hpw.
  case_bool_decide as Hconf; [|done]. cbn [negb].
  case_bool_decide as Hlen; [done|].
  destruct (falsy hasAccount) eqn:Hh; [done|]. apply falsy_false in Hh.
  destruct (bool_decide (hasAccount = "no") && window_open (partnerLink uid db0))
    eqn:Hno; [done|].
  intros [= <- <- <-]. split.
  - repeat split; try done; [lia|].
    intros ->. by rewrite bool_decide_eq_true_2 in Hno.
  - intros db new_id profile_id role_id Hfree.
    rewrite insert_auth_user_ok by done. cbn.
    rewrite lookup_insert_eq.
    rewrite lookup_insert_ne by done. rewrite lookup_singleton_eq. done.
Qed.

Lemma handleSignup_registers_form_values_witness :
  profiles
    (snd (run (insert_auth_user
                 (signUp_row Sample.bob
                    {[ "full_name" := JString "Bob";
                       "telegram_handle" := JString "@bob" ]})
                 "p-1" "r-1")
              (initial_database "s-1")))
  = profiles (initial_database "s-1") ++ [Profile.mk "p-1" Sample.bob "Bob" "@bob"].
Proof.
  apply (handleSignup_registers_form_values (λ _, true)
           (mkSignupForm "Bob" "bob@example.org" "@bob" "secret1" "secret1")
           "yes" None (initial_database "s-1") "bob@example.org" "secret1").
  - vm_compute. reflexivity.
  - vm_compute. reflexivity.
Defined.

Lemma partnerLink_of_settings uid db :
  partnerLink uid db
  = match admin_settings db with
    | [r] => match AdminSettings.fbs_partner_link r with
             | Some link => if falsy link then "https://fbs.com/partner-link" else link
             | None => "https://fbs.com/partner-link"
             end
    | _ => "https://fbs.com/partner-link"
    end.
Proof.
  unfold partnerLink, fetch_fbs_partner_link, select_admin_settings. tx_unfold.
  rewrite settings_select_all. cbn [fst].
  by destruct (admin_settings db) as [|r [|q l]].
Qed.

(** X8. For a valid form with [hasAccount = "no"] the page opens the
    partner link of the settings, or the built-in link when the settings
    read does not give exactly one row with a non-empty link. When
    [window.open] returns, nobody is registered; when it throws, as it
    does on a stored link that is no URL, the handler calls [signUp] with
    the form's values all the same. *)
Theorem handleSignup_partner_link (window_open : string → bool) (form : signupForm)
    (uid : option UUID) (db : Database) :
  handleSignup window_open form "yes" uid db
  = signup_signUp (email form) (signup_password form)
      {[ "full_name" := JString (fullName form);
         "telegram_handle" := JString (telegramHandle form) ]} →
  partnerLink uid db
  = match admin_settings db with
    | [r] => match AdminSettings.fbs_partner_link r with
             | Some link => if falsy link then "https://fbs.com/partner-link" else link
             | None => "https://fbs.com/partner-link"
             end
    | _ => "https://fbs.com/partner-link"
    end
  ∧ (window_open (partnerLink uid db) = true →
     handleSignup window_open form "no" uid db
     = signup_open_partner_link (partnerLink uid db))
  ∧ (window_open (partnerLink uid db) = false →
     handleSignup window_open form "no" uid db
     = signup_signUp (email form) (signup_password form)
         {[ "full_name" := JString (fullName form);
            "telegram_handle" := JString (telegramHandle form) ]}).
Proof.
  unfold handleSignup.
  destruct (falsy (fullName form) || falsy (email form) || falsy (telegramHandle form)
            || falsy (signup_password form)); [done|].
  case_bool_decide; [|done]. cbn [negb].
  case_bool_decide; [done|]. intros _.
  split; [apply partnerLink_of_settings|].
  unfold falsy. rewrite (bool_decide_eq_false_2 ("no" = "")) by done.
  rewrite (bool_decide_eq_true_2 ("no" = "no")) by done. cbn [andb].
  split; by intros ->.
Qed.

Lemma handleSignup_partner_link_witness :
  handleSignup (λ link, negb (bool_decide (link = "http://")))
    (mkSignupForm "Bob" "bob@example.org" "@bob" "secret1" "secret1")
    "no" None Sample.db
  = signup_open_partner_link "https://fbs.com/partner-link"
  ∧ handleSignup (λ link, negb (bool_decide (link = "http://")))
      (mkSignupForm "Bob" "bob@example.org" "@bob" "secret1" "secret1")
      "no" None
      (set_admin_settings [AdminSettings.mk "s-1" (Some "http://") None None] Sample.db)
    = signup_signUp "bob@example.org" "secret1"
        {[ "full_name" := JString "Bob"; "telegram_handle" := JString "@bob" ]}.
Proof.
  split.
  - change "https://fbs.com/partner-link" with (partnerLink None Sample.db).
    apply (handleSignup_partner_link (λ link, negb (bool_decide (link = "http://")))
             (mkSignupForm "Bob" "bob@example.org" "@bob" "secret1" "secret1")
             None Sample.db); vm_compute; reflexivity.
  - apply (handleSignup_partner_link (λ link, negb (bool_decide (link = "http://")))
             (mkSignupForm "Bob" "bob@example.org" "@bob" "secret1" "secret1")
             None
             (set_admin_settings [AdminSettings.mk "s-1" (Some "http://") None None]
                Sample.db)); vm_compute; reflexivity.
Defined.

(** The length of a password is counted in code units, not bytes. *)
Example utf16_length_examples :
  utf16_length "secret" = 6%nat
  ∧ utf16_length "пароль" = 6%nat
  ∧ String.length "пароль" = 12%nat.
Proof. by vm_compute. Qed.

(** ** Local storage *)

Lemma fold_delete_lookup (P : string → bool) (keys : list string) :
  ∀ (store : gmap string string) (k : string),
    fold_left (λ store key, if P key then delete key store else store) keys store !! k
    = if P k && bool_decide (k ∈ keys) then None else store !! k.
Proof.
  induction keys as [|key keys IH]; intros store k; cbn [fold_left].
  - rewrite bool_decide_eq_false_2 by apply not_elem_of_nil.
    by rewrite andb_false_r.
  - rewrite IH. destruct (P k) eqn:Hk; cbn [andb].
    + destruct (decide (k = key)) as [->|Hne].
      * rewrite Hk. rewrite (bool_decide_eq_true_2 (key ∈ key :: keys)) by left.
        case_bool_decide; [done|]. apply lookup_delete_eq.
      * rewrite (bool_decide_ext (k ∈ key :: keys) (k ∈ keys))
          by (rewrite elem_of_cons; split; [intros [?|?]; [congruence|done] | by right]).
        case_bool_decide; [done|].
        destruct (P key); [by apply lookup_delete_ne|done].
    + destruct (P key) eqn:Hkey; [|done].
      apply lookup_delete_ne. intros ->. congruence.
Qed.

(** X9. [cleanupAuthState] removes exactly the keys that start with
    "supabase.auth." or contain "sb-": afterwards such a key is gone and
    every other key has the value it had; running it again changes
    nothing. *)
Theorem cleanupAuthState_removes_auth_keys (localStorage : gmap string string) :
  (∀ key, cleanupAuthState localStorage !! key
          = if is_auth_key key then None else localStorage !! key)
  ∧ cleanupAuthState (cleanupAuthState localStorage) = cleanupAuthState localStorage.
Proof.
  assert (Hl : ∀ ls key, cleanupAuthState ls !! key
                         = if is_auth_key key then None else ls !! key).
  { intros ls key. unfold cleanupAuthState. rewrite fold_delete_lookup.
    destruct (is_auth_key key); [|done]. cbn [andb].
    case_bool_decide as Hin; [done|].
    destruct (ls !! key) as [v|] eqn:Hv; [|done].
    exfalso. apply Hin. apply list_elem_of_fmap. exists (key, v).
    split; [done|]. by apply elem_of_map_to_list. }
  split; [apply Hl|].
  apply map_eq. intros key. rewrite !Hl. by destruct (is_auth_key key).
Qed.

Example cleanupAuthState_example :
  cleanupAuthState
    {[ "supabase.auth.token" := "t1"; "sb-abcd-auth-token" := "t2";
       "theme" := "dark"; "my-sb-key" := "x" ]}
  = {[ "theme" := "dark" ]}.
Proof. by vm_compute. Qed.

(** ** Password visibility on the Admin page *)

(** X10. A password field starts hidden; a click on its eye button
    switches it between "password" and "text", a second click switches it
    back, and a click never changes the field of another account. *)
Theorem togglePasswordVisibility_flips_one (prev : gmap string bool) (a b : UUID) :
  password_input_type ∅ b = "password"
  ∧ password_input_type (togglePasswordVisibility a prev) a
    ≠ password_input_type prev a
  ∧ password_input_type (togglePasswordVisibility a (togglePasswordVisibility a prev)) b
    = password_input_type prev b
  ∧ (a ≠ b →
     password_input_type (togglePasswordVisibility a prev) b
     = password_input_type prev b).
Proof.
  unfold password_input_type, togglePasswordVisibility.
  split; [done|]. split; [|split].
  - rewrite lookup_insert_eq. cbn. by destruct (default false (prev !! a)).
  - destruct (decide (a = b)) as [->|Hne].
    + rewrite !lookup_insert_eq. cbn. by destruct (default false (prev !! b)).
    + by rewrite !lookup_insert_ne.
  - intros Hne. by rewrite lookup_insert_ne.
Qed.

Lemma togglePasswordVisibility_flips_one_witness :
  password_input_type (togglePasswordVisibility "acc-1" ∅) "acc-2"
  = password_input_type ∅ "acc-2".
Proof.
  apply (togglePasswordVisibility_flips_one ∅ "acc-1" "acc-2"). discriminate.
Defined.

(** ** Roles along the requests *)

Lemma has_role_after_registration db NEW profile_id role_id uid :
  has_role (after_registration db NEW profile_id role_id) uid admin
  = has_role db uid admin.
Proof.
  unfold has_role, after_registration. cbn [user_roles].
  rewrite existsb_app. cbn [existsb UserRole.role].
  rewrite (bool_decide_eq_false_2 (user = admin)) by done.
  by rewrite andb_false_r, !orb_false_r.
Qed.

Lemma step_keeps_admins parseFloat db req uid :
  has_role (step parseFloat db req) uid admin = has_role db uid admin.
Proof.
  destruct (step_has_effect parseFloat db req)
    as [req|NEW pid rid Hf|u gen_id form d Hp Hd Hu|uid' accountId updates Ha
       |uid' id gen_id form l]; try done.
  apply has_role_after_registration.
Qed.

(** X11. No request of the application makes or unmakes an
    administrator: along every sequence of registrations, submissions,
    updates, settings saves and reads, each caller holds the admin role at
    the end exactly if it held it at the start. *)
Theorem admin_role_is_stable (parseFloat : string → option Z) (reqs : list request) :
  ∀ (db : Database) (uid : option UUID),
    has_role (steps parseFloat db reqs) uid admin = has_role db uid admin.
Proof.
  induction reqs as [|req rest IH]; intros db uid; [done|].
  cbn [steps fold_left]. fold (steps parseFloat (step parseFloat db req) rest).
  rewrite IH. apply step_keeps_admins.
Qed.

Lemma has_role_roles_of db u role :
  has_role db (Some u) role
  = existsb (λ r, bool_decide (UserRole.role r = role)) (roles_of db u).
Proof.
  unfold has_role, roles_of. induction (user_roles db) as [|r l IH]; [done|].
  assert (Heq : sql_eq_uuid (Some u) (UserRole.user_id r)
                = bool_decide (UserRole.user_id r = u)).
  { cbn. apply bool_decide_ext. split; congruence. }
  cbn [existsb List.filter]. rewrite Heq.
  destruct (bool_decide (UserRole.user_id r = u)); cbn [andb orb existsb];
    by rewrite IH.
Qed.

(** X12. An identity that has just been registered holds the role
    [user] and not the role [admin]. *)
Theorem new_identity_is_plain_user (db : Database) (NEW : AuthUser.row)
    (profile_id role_id : UUID) :
  consistent db →
  registration_keys_free db NEW profile_id role_id = true →
  has_role (snd (run (insert_auth_user NEW profile_id role_id) db))
           (Some (AuthUser.id NEW)) user = true
  ∧ has_role (snd (run (insert_auth_user NEW profile_id role_id) db))
             (Some (AuthUser.id NEW)) admin = false.
Proof.
  intros [Href _] Hfree. rewrite insert_auth_user_ok by done. cbn [snd].
  destruct (after_registration_rows db NEW profile_id role_id Href Hfree) as [_ Hr].
  rewrite !has_role_roles_of, Hr. done.
Qed.

Lemma new_identity_is_plain_user_witness :
  has_role (snd (run (insert_auth_user (AuthUser.mk "carol" None) "p-9" "r-9") Sample.db))
           (Some "carol") user = true
  ∧ has_role (snd (run (insert_auth_user (AuthUser.mk "carol" None) "p-9" "r-9")
                       Sample.db))
             (Some "carol") admin = false.
Proof.
  apply (new_identity_is_plain_user Sample.db (AuthUser.mk "carol" None) "p-9" "r-9").
  - split; [split|]; intros x Hx; cbn in Hx;
      repeat (apply elem_of_cons in Hx as [->|Hx]);
      try (by apply elem_of_nil in Hx); vm_compute; try done; split; done.
  - vm_compute. reflexivity.
Defined.

(** ** The account form *)

(** The answers of [handleSubmit], branch by branch. *)
Lemma handleSubmit_outcomes_aux (parseFloat : string → option Z) (u : option UUID)
    (gen_id : UUID) (form : formData) (db : Database) :
  let empty := accountId form = "" ∨ password form = "" ∨ server form = ""
               ∨ initialDeposit form = "" in
  (fst (handleSubmit parseFloat u gen_id form db) = toast_Missing_information ↔ empty)
  ∧ (fst (handleSubmit parseFloat u gen_id form db) = toast_Invalid_deposit_amount
     ↔ ¬ empty ∧ (parseFloat (initialDeposit form) = None
                  ∨ ∃ d, parseFloat (initialDeposit form) = Some d ∧ d ≤ 0))
  ∧ (fst (handleSubmit parseFloat u gen_id form db) = onAccountAdded →
     ¬ empty
     ∧ ∃ owner d,
         u = Some owner
         ∧ parseFloat (initialDeposit form) = Some d
         ∧ 0 < d < 10000000000
         ∧ key_in MT5Account.id gen_id (mt5_accounts db) = false
         ∧ key_in AuthUser.id owner (auth_users db) = true)
  ∧ (fst (handleSubmit parseFloat u gen_id form db) ≠ onAccountAdded →
     snd (handleSubmit parseFloat u gen_id form db) = db).
Proof.
  cbn zeta. unfold handleSubmit.
  destruct (falsy (accountId form) || falsy (password form) || falsy (server form)
            || falsy (initialDeposit form)) eqn:Hm.
  { assert (accountId form = "" ∨ password form = "" ∨ server form = ""
            ∨ initialDeposit form = "") as He.
    { unfold falsy in Hm. rewrite !orb_true_iff, !bool_decide_eq_true in Hm. tauto. }
    cbn [fst snd]. split; [done|]. split; [|done]. split; [done | tauto]. }
  assert (¬ (accountId form = "" ∨ password form = "" ∨ server form = ""
             ∨ initialDeposit form = "")) as Hne.
  { unfold falsy in Hm. rewrite !orb_false_iff, !bool_decide_eq_false in Hm. tauto. }
  destruct (parseFloat (initialDeposit form)) as [d|] eqn:Hp.
  2: { cbn [fst snd]. split; [split; [done | tauto]|]. split; [|done].
       split; [|done]. intros _. split; [done | by left]. }
  case_bool_decide as Hd.
  { cbn [fst snd]. split; [split; [done | tauto]|]. split; [|done].
    split; [|done]. intros _. split; [done|]. right. by exists d. }
  assert (Hinv : ¬ (Some d = None ∨ ∃ d', Some d = Some d' ∧ d' ≤ 0)).
  { intros [?|(d' & [= <-] & ?)]; [done|lia]. }
  rewrite insert_mt5_account_run.
  cbn [MT5Account.initial_deposit MT5Account.current_balance MT5Account.id
       MT5Account.user_id].
  destruct (in_decimal_10_2 (Some d) && in_decimal_10_2 (Some d)) eqn:Hfit; cbn [negb].
  2: { cbn [fst snd]. split; [split; [done | tauto]|]. split; [|done].
       split; [done | tauto]. }
  destruct (rls_check mt5_accounts_policies INSERT db u _) eqn:Hc; cbn [negb].
  2: { cbn [fst snd]. split; [split; [done | tauto]|]. split; [|done].
       split; [done | tauto]. }
  destruct (key_in MT5Account.id gen_id (mt5_accounts db)) eqn:Hk.
  { cbn [fst snd]. split; [split; [done | tauto]|]. split; [|done].
    split; [done | tauto]. }
  destruct (key_in AuthUser.id (default "" u) (auth_users db)) eqn:Hfk; cbn [negb].
  2: { cbn [fst snd]. split; [split; [done | tauto]|]. split; [|done].
       split; [done | tauto]. }
  cbn [fst snd]. split; [split; [done | tauto]|].
  split; [split; [done | tauto]|]. split; [|done].
  intros _. split; [done|].
  destruct u as [owner|].
  - exists owner, d. repeat split; try done; try lia.
    apply andb_true_iff in Hfit as [Hfit _]. cbn in Hfit.
    apply bool_decide_eq_true in Hfit. lia.
  - by rewrite anonymous_insert_denied in Hc.
Qed.

Lemma to_hundredths_of_hundredths (d : Z) : to_hundredths (d # 100) = d.
Proof.
  unfold to_hundredths. cbn [Qnum Qden].
  replace (2 * Z.abs (d * 100) + 100) with (Z.abs d * (2 * 100) + 100) by lia.
  rewrite Z.div_add_l by lia. rewrite (Z.div_small 100 (2 * 100)) by lia.
  rewrite Z.add_0_r. destruct d; cbn; lia.
Qed.

Lemma to_hundredths_nonneg (q : Q) : (0 < q)%Q → 0 ≤ to_hundredths q.
Proof.
  unfold Qlt, to_hundredths. cbn [Qnum Qden]. intros Hq.
  assert (0 < Qnum q) as Hn by lia.
  rewrite Z.sgn_pos by lia. rewrite Z.mul_1_l.
  apply Z.div_pos; lia.
Qed.

Lemma to_hundredths_below_half (q : Q) :
  (0 < q)%Q → (q < 1 # 200)%Q → to_hundredths q = 0.
Proof.
  unfold Qlt, to_hundredths. cbn [Qnum Qden]. intros Hq Hs.
  assert (0 < Qnum q) as Hn by lia.
  rewrite Z.sgn_pos by lia. rewrite Z.mul_1_l.
  apply Z.div_small. lia.
Qed.

(** The answers of [handleSubmit_number], branch by branch. *)
Lemma handleSubmit_number_cases (parseFloat : string → number) (u : option UUID)
    (gen_id : UUID) (form : formData) (db : Database) :
  let empty := accountId form = "" ∨ password form = "" ∨ server form = ""
               ∨ initialDeposit form = "" in
  let x := parseFloat (initialDeposit form) in
  (fst (handleSubmit_number parseFloat u gen_id form db) = toast_Missing_information
   ↔ empty)
  ∧ (fst (handleSubmit_number parseFloat u gen_id form db) = toast_Invalid_deposit_amount
     ↔ ¬ empty ∧ (isNaN x || number_le_0 x = true))
  ∧ (fst (handleSubmit_number parseFloat u gen_id form db) = onAccountAdded →
     ¬ empty
     ∧ isNaN x || number_le_0 x = false
     ∧ in_decimal_10_2 (amount_of_number x) = true
     ∧ ∃ owner,
         u = Some owner
         ∧ key_in MT5Account.id gen_id (mt5_accounts db) = false
         ∧ key_in AuthUser.id owner (auth_users db) = true
         ∧ snd (handleSubmit_number parseFloat u gen_id form db)
           = set_mt5_accounts
               (mt5_accounts db ++
                  [MT5Account.mk gen_id owner (accountId form) (password form)
                     (server form) (amount_of_number x) (amount_of_number x)
                     false false])
               db)
  ∧ (fst (handleSubmit_number parseFloat u gen_id form db) ≠ onAccountAdded →
     snd (handleSubmit_number parseFloat u gen_id form db) = db).
Proof.
  cbn zeta. unfold handleSubmit_number.
  destruct (falsy (accountId form) || falsy (password form) || falsy (server form)
            || falsy (initialDeposit form)) eqn:Hm.
  { assert (accountId form = "" ∨ password form = "" ∨ server form = ""
            ∨ initialDeposit form = "") as He.
    { unfold falsy in Hm. rewrite !orb_true_iff, !bool_decide_eq_true in Hm. tauto. }
    cbn [fst snd]. split; [done|]. split; [|done]. split; [done | tauto]. }
  assert (¬ (accountId form = "" ∨ password form = "" ∨ server form = ""
             ∨ initialDeposit form = "")) as Hne.
  { unfold falsy in Hm. rewrite !orb_false_iff, !bool_decide_eq_false in Hm. tauto. }
  destruct (isNaN (parseFloat (initialDeposit form))
            || number_le_0 (parseFloat (initialDeposit form))) eqn:Hx.
  { cbn [fst snd]. split; [split; [done | tauto]|]. split; [|done].
    split; [|done]. by intros _. }
  rewrite insert_mt5_account_run.
  cbn [MT5Account.initial_deposit MT5Account.current_balance MT5Account.id
       MT5Account.user_id].
  destruct (in_decimal_10_2 (amount_of_number (parseFloat (initialDeposit form))))
    eqn:Hfit; cbn [andb negb].
  2: { cbn [fst snd]. split; [split; [done | tauto]|]. split; [|done].
       split; [done | by intros [_ ?]]. }
  destruct (rls_check mt5_accounts_policies INSERT db u _) eqn:Hc; cbn [negb].
  2: { cbn [fst snd]. split; [split; [done | tauto]|]. split; [|done].
       split; [done | by intros [_ ?]]. }
  destruct (key_in MT5Account.id gen_id (mt5_accounts db)) eqn:Hk.
  { cbn [fst snd]. split; [split; [done | tauto]|]. split; [|done].
    split; [done | by intros [_ ?]]. }
  destruct (key_in AuthUser.id (default "" u) (auth_users db)) eqn:Hfk; cbn [negb].
  2: { cbn [fst snd]. split; [split; [done | tauto]|]. split; [|done].
       split; [done | by intros [_ ?]]. }
  cbn [fst snd]. split; [split; [done | tauto]|].
  split; [split; [done | by intros [_ ?]]|]. split; [|done].
  intros _. split; [done|]. split; [done|]. split; [done|].
  destruct u as [owner|].
  - by exists owner.
  - by rewrite anonymous_insert_denied in Hc.
Qed.

(** X13. [handleSubmit] on the number [parseFloat] returns. It answers
    "Missing information" exactly when one of the four fields is empty;
    otherwise "Invalid deposit amount" exactly when the number is NaN,
    minus infinity or a finite number not above zero. It reports success
    only after storing a row under a free id for the signed-in, registered
    caller, and the row holds the deposit as the column rounds it: an
    amount of at least 0.00, which is 0.00 for a deposit below half a
    hundredth, and NULL for plus infinity. In every other case the store is
    unchanged. On a [parseFloat] that returns whole hundredths the handler
    is [handleSubmit]. *)
Theorem handleSubmit_number_outcomes (parseFloat : string → number) (u : option UUID)
    (gen_id : UUID) (form : formData) (db : Database) :
  let empty := accountId form = "" ∨ password form = "" ∨ server form = ""
               ∨ initialDeposit form = "" in
  let x := parseFloat (initialDeposit form) in
  (fst (handleSubmit_number parseFloat u gen_id form db) = toast_Missing_information
   ↔ empty)
  ∧ (fst (handleSubmit_number parseFloat u gen_id form db) = toast_Invalid_deposit_amount
     ↔ ¬ empty ∧ (x = NaN ∨ x = NegInfinity ∨ ∃ q, x = Finite q ∧ (q <= 0)%Q))
  ∧ (fst (handleSubmit_number parseFloat u gen_id form db) = onAccountAdded →
     ¬ empty
     ∧ (∃ owner,
          u = Some owner
          ∧ key_in MT5Account.id gen_id (mt5_accounts db) = false
          ∧ key_in AuthUser.id owner (auth_users db) = true
          ∧ snd (handleSubmit_number parseFloat u gen_id form db)
            = set_mt5_accounts
                (mt5_accounts db ++
                   [MT5Account.mk gen_id owner (accountId form) (password form)
                      (server form) (amount_of_number x) (amount_of_number x)
                      false false])
                db)
     ∧ ((x = Infinity ∧ amount_of_number x = None)
        ∨ ∃ q, x = Finite q ∧ (0 < q)%Q
               ∧ amount_of_number x = Some (to_hundredths q)
               ∧ 0 ≤ to_hundredths q < 10000000000
               ∧ ((q < 1 # 200)%Q → to_hundredths q = 0)))
  ∧ (fst (handleSubmit_number parseFloat u gen_id form db) ≠ onAccountAdded →
     snd (handleSubmit_number parseFloat u gen_id form db) = db)
  ∧ (∀ parseFloat_hundredths : string → option Z,
       handleSubmit_number (λ s, number_of_hundredths (parseFloat_hundredths s))
         u gen_id form db
       = handleSubmit parseFloat_hundredths u gen_id form db).
Proof.
  cbn zeta.
  destruct (handleSubmit_number_cases parseFloat u gen_id form db)
    as (Hmiss & Hinv & Hok & Hno).
  assert (Hle : ∀ x, isNaN x || number_le_0 x = true
                     ↔ x = NaN ∨ x = NegInfinity ∨ ∃ q, x = Finite q ∧ (q <= 0)%Q).
  { intros [| | |q]; cbn.
    - split; [by left | done].
    - split; [done | by intros [?|[?|(? & ? & _)]]].
    - split; [by right; left | done].
    - rewrite Qle_bool_iff. split.
      + intros Hq. right. right. by exists q.
      + by intros [?|[?|(q' & [= <-] & ?)]]. }
  split; [exact Hmiss|]. split; [by rewrite <- Hle|]. split; [|split; [exact Hno|]].
  - intros Hs. destruct (Hok Hs) as (Hne & Hx & Hfit & Hrow).
    split; [done|]. split; [done|].
    destruct (parseFloat (initialDeposit form)) as [| | |q] eqn:Hp; cbn in Hx; try done.
    + by left.
    + right. exists q. split; [done|].
      assert (Hq : (0 < q)%Q).
      { apply Qnot_le_lt. intros Hq. apply Qle_bool_iff in Hq. by rewrite Hq in Hx. }
      split; [done|]. split; [done|]. split.
      * pose proof (to_hundredths_nonneg q Hq). cbn in Hfit.
        apply bool_decide_eq_true in Hfit. lia.
      * by apply to_hundredths_below_half.
  - intros pf. unfold handleSubmit_number, handleSubmit.
    destruct (falsy _ || falsy _ || falsy _ || falsy _); [done|].
    destruct (pf (initialDeposit form)) as [d|]; [|done].
    cbn [number_of_hundredths isNaN number_le_0 orb amount_of_number].
    rewrite to_hundredths_of_hundredths.
    assert (Hd : Qle_bool (d # 100) 0 = bool_decide (d ≤ 0)).
    { unfold Qle_bool. cbn [Qnum Qden].
      destruct (bool_decide_reflect (d ≤ 0)); [apply Z.leb_le | apply Z.leb_gt]; lia. }
    rewrite Hd. by destruct (bool_decide (d ≤ 0)).
Qed.

Lemma handleSubmit_number_outcomes_witness :
  snd (handleSubmit_number (λ _, Finite (1 # 1000)) (Some Sample.alice) "acc-3"
         (mkFormData "123" "pw" "Demo" "0.001") Sample.db)
  = set_mt5_accounts
      (mt5_accounts Sample.db ++
         [MT5Account.mk "acc-3" Sample.alice "123" "pw" "Demo" (Some 0) (Some 0)
            false false])
      Sample.db.
Proof.
  destruct (handleSubmit_number_outcomes (λ _, Finite (1 # 1000)) (Some Sample.alice)
              "acc-3" (mkFormData "123" "pw" "Demo" "0.001") Sample.db)
    as (_ & _ & Hok & _).
  destruct (Hok eq_refl) as (_ & (owner & [= <-] & _ & _ & Hrow) & _).
  exact Hrow.
Defined.

(** ** Totals after a submission *)

Lemma totalBalance_from (accounts : list MT5Account.row) (start : Z) :
  fold_left (λ sum account, sum + or0 (MT5Account.current_balance account))
            accounts start
  = start + totalBalance accounts.
Proof.
  unfold totalBalance. revert start.
  induction accounts as [|a l IH]; intros start; cbn [fold_left]; [lia|].
  rewrite IH, (IH (0 + _)). lia.
Qed.

Lemma totalBalance_app l1 l2 :
  totalBalance (l1 ++ l2) = totalBalance l1 + totalBalance l2.
Proof.
  unfold totalBalance at 1. rewrite fold_left_app, totalBalance_from.
  unfold totalBalance at 2. lia.
Qed.

Lemma totalProfit_app l1 l2 :
  totalProfit (l1 ++ l2) = totalProfit l1 + totalProfit l2.
Proof.
  unfold totalProfit. rewrite !totalProfit_from, spec_total_profit_app. lia.
Qed.

(** X14. A submission that succeeds adds one Trading Account; over all
    the rows (what the Admin page reads) the total balance grows by the
    deposit, while the total profit and the number of accounts with a
    commission due stay as they were. *)
Theorem submission_totals (parseFloat : string → option Z) (u : option UUID)
    (gen_id : UUID) (form : formData) (db db' : Database) :
  handleSubmit parseFloat u gen_id form db = (onAccountAdded, db') →
  ∃ d, parseFloat (initialDeposit form) = Some d
       ∧ length (mt5_accounts db') = S (length (mt5_accounts db))
       ∧ totalBalance (mt5_accounts db') = totalBalance (mt5_accounts db) + d
       ∧ totalProfit (mt5_accounts db') = totalProfit (mt5_accounts db)
       ∧ accountsNeedingCommission (mt5_accounts db')
         = accountsNeedingCommission (mt5_accounts db).
Proof.
  intros Hs.
  destruct (handleSubmit_cases parseFloat u gen_id form db)
    as [[_ Hn]|(d & Hp & Hd & He & _)].
  { by rewrite Hs in Hn. }
  rewrite Hs in He. injection He as ->. exists d. split; [done|].
  cbn [mt5_accounts set_mt5_accounts].
  rewrite length_app, totalBalance_app, totalProfit_app.
  unfold accountsNeedingCommission. rewrite List.filter_app, length_app.
  cbn. repeat split; lia.
Qed.

Lemma submission_totals_witness :
  ∃ d, Sample.parseFloat "1000" = Some d
       ∧ length (mt5_accounts
                   (snd (handleSubmit Sample.parseFloat (Some Sample.alice) "acc-3"
                           (mkFormData "123" "pw" "Demo" "1000") Sample.db)))
         = S (length (mt5_accounts Sample.db))
       ∧ totalBalance
           (mt5_accounts
              (snd (handleSubmit Sample.parseFloat (Some Sample.alice) "acc-3"
                      (mkFormData "123" "pw" "Demo" "1000") Sample.db)))
         = totalBalance (mt5_accounts Sample.db) + d
       ∧ totalProfit
           (mt5_accounts
              (snd (handleSubmit Sample.parseFloat (Some Sample.alice) "acc-3"
                      (mkFormData "123" "pw" "Demo" "1000") Sample.db)))
         = totalProfit (mt5_accounts Sample.db)
       ∧ accountsNeedingCommission
           (mt5_accounts
              (snd (handleSubmit Sample.parseFloat (Some Sample.alice) "acc-3"
                      (mkFormData "123" "pw" "Demo" "1000") Sample.db)))
         = accountsNeedingCommission (mt5_accounts Sample.db).
Proof.
  apply (submission_totals Sample.parseFloat (Some Sample.alice) "acc-3"
           (mkFormData "123" "pw" "Demo" "1000") Sample.db).
  vm_compute. reflexivity.
Defined.

(** ** What the pages show for the milestone flags *)

(** X15. On an account card the "Commission Payment Required" box is
    shown exactly when the badge reads "Commission Due", and a badge
    "Commission Paid" comes with the "Commission paid" line; an account
    that is paid without its target reached shows the "Commission paid"
    line and no badge. The "Commission Due" counter of the Admin page is
    the number of accounts whose badge reads "Commission Due". *)
Theorem commission_display_agrees (accounts : list MT5Account.row) :
  (∀ account,
     (payment_required account = true ↔ badge account = Some "Commission Due")
     ∧ (badge account = Some "Commission Paid" → commission_paid_line account = true)
     ∧ (commission_paid_line account = true ∧ badge account = None
        ↔ MT5Account.commission_paid account = true
          ∧ MT5Account.profit_target_reached account = false))
  ∧ accountsNeedingCommission accounts
    = length (List.filter (λ a, bool_decide (badge a = Some "Commission Due")) accounts)
  ∧ (accountsNeedingCommission accounts ≤ length accounts)%nat.
Proof.
  split; [|split].
  - intros [? ? ? ? ? ? ? ptr paid].
    unfold payment_required, commission_paid_line, badge. cbn.
    destruct ptr, paid; cbn; repeat split; intros; try done; by destruct_and?.
  - unfold accountsNeedingCommission. f_equal.
    induction accounts as [|[? ? ? ? ? ? ? ptr paid] l IH]; [done|].
    cbn [List.filter]. rewrite IH. unfold badge. cbn.
    by destruct ptr, paid.
  - unfold accountsNeedingCommission.
    induction accounts as [|a l IH]; [done|]. cbn [List.filter].
    destruct (_ && _); cbn [length]; lia.
Qed.

Lemma commission_display_agrees_witness :
  badge Sample.account_alice = Some "Commission Due".
Proof.
  destruct (commission_display_agrees []) as [Hcard _].
  apply (Hcard Sample.account_alice). reflexivity.
Defined.

(** X16. The two pages colour the profit of an account alike except at
    a profit of zero, which the Dashboard shows in red and the Admin page
    in green; this is the state of every account right after its
    submission. *)
Theorem profit_colour_differs_at_zero (account : MT5Account.row) :
  (isProfitable account ≠ Admin_profit_is_green account ↔ profit account = 0)
  ∧ ∀ u gen_id form d,
      profit (submitted_row u gen_id form d) = 0
      ∧ isProfitable (submitted_row u gen_id form d) = false
      ∧ Admin_profit_is_green (submitted_row u gen_id form d) = true.
Proof.
  split.
  - unfold isProfitable, Admin_profit_is_green.
    repeat case_bool_decide; split; intros; try done; lia.
  - intros u gen_id form d.
    assert (profit (submitted_row u gen_id form d) = 0) as Hz.
    { unfold profit. cbn. lia. }
    unfold isProfitable, Admin_profit_is_green. rewrite Hz. done.
Qed.

(** ** Updates of Trading Accounts: ids and repetition *)

Lemma keys_unique_app_last {A} (f : A → UUID) (l : list A) (a : A) :
  keys_unique f (l ++ [a]) = keys_unique f l && negb (key_in f (f a) l).
Proof.
  induction l as [|b l IH]; [done|].
  assert (H1 : key_in f (f b) (l ++ [a])
               = key_in f (f b) l || bool_decide (f a = f b)).
  { rewrite key_in_app. f_equal. unfold key_in. cbn. apply orb_false_r. }
  assert (H2 : key_in f (f a) (b :: l)
               = bool_decide (f a = f b) || key_in f (f a) l).
  { unfold key_in. cbn [existsb]. f_equal. apply bool_decide_ext. split; congruence. }
  cbn [app keys_unique]. rewrite IH, H1, H2.
  destruct (key_in f (f b) l), (bool_decide (f a = f b)), (keys_unique f l),
    (key_in f (f a) l); done.
Qed.

Lemma key_in_same_keys {A} (f : A → UUID) (g : A → A) x (l : list A) :
  (∀ r, f (g r) = f r) → key_in f x (map g l) = key_in f x l.
Proof.
  intros Hg. unfold key_in. induction l as [|b l IH]; [done|].
  cbn [map existsb]. by rewrite Hg, IH.
Qed.

Lemma keys_unique_same_keys {A} (f : A → UUID) (g : A → A) (l : list A) :
  (∀ r, f (g r) = f r) → keys_unique f (map g l) = keys_unique f l.
Proof.
  intros Hg. induction l as [|a l IH]; [done|].
  cbn [map keys_unique]. by rewrite IH, Hg, key_in_same_keys.
Qed.

Lemma apply_updates_keeps_id updates r :
  PartialMT5Account.id updates = None →
  MT5Account.id (apply_updates updates r) = MT5Account.id r.
Proof. intros Hid. unfold apply_updates. cbn. by rewrite Hid. Qed.

Lemma existsb_false_all {A} (f : A → bool) (l : list A) :
  existsb f l = false → ∀ x, x ∈ l → f x = false.
Proof.
  intros He x Hx. destruct (f x) eqn:Hf; [|done].
  assert (existsb f l = true) as Ht.
  { apply existsb_exists. exists x. split; [by apply list_elem_of_In | done]. }
  by rewrite Ht in He.
Qed.

(** A successful UPDATE, spelled out. *)
Lemma update_mt5_accounts_ok db uid accountId updates n db' :
  run (update_mt5_accounts uid accountId updates) db = (Ok n, db') →
  n = length (List.filter (update_target db uid accountId) (mt5_accounts db))
  ∧ db' = set_mt5_accounts
            (map (λ r, if update_target db uid accountId r
                       then apply_updates updates r else r)
                 (mt5_accounts db))
            db
  ∧ match PartialMT5Account.id updates with
    | Some _ =>
        negb (existsb (update_target db uid accountId) (mt5_accounts db))
        || keys_unique MT5Account.id
             (map (λ r, if update_target db uid accountId r
                        then apply_updates updates r else r)
                  (mt5_accounts db))
    | None => true
    end = true.
Proof.
  unfold update_mt5_accounts. tx_unfold.
  destruct (in_decimal_10_2 _ && in_decimal_10_2 _); [|done].
  destruct (forallb _ (mt5_accounts db)); [|done].
  destruct (match PartialMT5Account.id updates with
            | Some _ => _ | None => true end) eqn:Hk; [|done].
  destruct (match PartialMT5Account.user_id updates with
            | Some _ => _ | None => true end); [|done].
  intros [= <- <-]. done.
Qed.

Lemma filter_key_at_most_one {A} (f : A → UUID) x (l : list A) :
  keys_unique f l = true →
  (length (List.filter (λ r, bool_decide (f r = x)) l) ≤ 1)%nat.
Proof.
  induction l as [|a l IH]; intros Hu; [cbn; lia|].
  cbn [keys_unique] in Hu. apply andb_true_iff in Hu as [Hk Hu].
  apply negb_true_iff in Hk. cbn [List.filter].
  case_bool_decide as Ha; [|by apply IH].
  rewrite (filter_key_none f x l); [cbn; lia|].
  rewrite Ha in Hk. by apply key_in_false.
Qed.

Lemma filter_length_le {A} (f g : A → bool) (l : list A) :
  (∀ x, f x = true → g x = true) →
  (length (List.filter f l) ≤ length (List.filter g l))%nat.
Proof.
  intros Hfg. induction l as [|a l IH]; [done|]. cbn [List.filter].
  destruct (f a) eqn:Hf.
  - rewrite (Hfg a Hf). cbn [length]. lia.
  - destruct (g a); cbn [length]; lia.
Qed.

(** X17. The ids of the Trading Accounts stay pairwise distinct under
    every request; and in a store with distinct ids an update answers with
    a count of at most one, keeps the number of rows, and leaves every row
    with another id exactly as it was. *)
Theorem update_touches_one_account (parseFloat : string → option Z) (db : Database) :
  keys_unique MT5Account.id (mt5_accounts db) = true →
  (∀ req, keys_unique MT5Account.id (mt5_accounts (step parseFloat db req)) = true)
  ∧ (∀ uid accountId updates n db',
       run (update_mt5_accounts uid accountId updates) db = (Ok n, db') →
       (n ≤ 1)%nat
       ∧ length (mt5_accounts db') = length (mt5_accounts db)
       ∧ ∀ i r, mt5_accounts db !! i = Some r →
                MT5Account.id r ≠ accountId →
                mt5_accounts db' !! i = Some r).
Proof.
  intros Hu. split.
  - intros [NEW pid rid|u gen_id form|uid accountId updates
           |uid id gen_id form|uid|uid]; cbn [step].
    + destruct (registration_keys_free db NEW pid rid) eqn:Hf.
      * by rewrite insert_auth_user_ok.
      * by destruct (insert_auth_user_err _ _ _ _ Hf) as [e ->].
    + destruct (handleSubmit_outcomes_aux parseFloat u gen_id form db)
        as (_ & _ & Hok & Hno).
      destruct (handleSubmit_cases parseFloat u gen_id form db)
        as [[-> _]|(d & Hp & Hd & He & _)]; [done|].
      rewrite He in Hok. destruct (Hok eq_refl) as (_ & owner & d' & _ & _ & _ & Hk & _).
      rewrite He. cbn [snd mt5_accounts set_mt5_accounts].
      rewrite keys_unique_app_last, Hu. cbn [MT5Account.id submitted_row].
      by rewrite Hk.
    + unfold updateMT5Account.
      destruct (run (update_mt5_accounts uid accountId updates) db)
        as [[n|e] db'] eqn:Hrun; cbn [snd].
      2: { unfold run in Hrun. destruct (update_mt5_accounts _ _ _ db) as [[? ?]|?];
           [discriminate Hrun | by injection Hrun as _ <-]. }
      destruct (update_mt5_accounts_ok _ _ _ _ _ _ Hrun) as (_ & -> & Hk).
      cbn [mt5_accounts set_mt5_accounts].
      destruct (PartialMT5Account.id updates) as [new_id|] eqn:Hid.
      * apply orb_true_iff in Hk as [Hk|Hk]; [|done].
        apply negb_true_iff in Hk.
        by rewrite (map_no_target _ _ _ (existsb_false_all _ _ Hk)).
      * rewrite keys_unique_same_keys; [done|].
        intros r. destruct (update_target db uid accountId r); [|done].
        by apply apply_updates_keeps_id.
    + by destruct (updateSettings_frame uid id gen_id form db) as [l ->].
    + done.
    + done.
  - intros uid accountId updates n db' Hrun.
    destruct (update_mt5_accounts_ok _ _ _ _ _ _ Hrun) as (-> & -> & _).
    cbn [mt5_accounts set_mt5_accounts]. split; [|split].
    + etrans; [|apply (filter_key_at_most_one MT5Account.id accountId _ Hu)].
      apply filter_length_le. intros r Hr. unfold update_target in Hr.
      apply andb_true_iff in Hr as [Hr _]. by apply andb_true_iff in Hr as [Hr _].
    + apply length_map.
    + intros i r Hi Hne. rewrite list_lookup_fmap, Hi. cbn.
      unfold update_target. by rewrite bool_decide_eq_false_2.
Qed.

Lemma update_touches_one_account_witness :
  keys_unique MT5Account.id
    (mt5_accounts
       (step Sample.parseFloat Sample.db
          (UpdateAccount (Some Sample.root) "acc-1"
             (PartialMT5Account.mk (Some "acc-9") None None None None None None None None))))
  = true.
Proof.
  apply (update_touches_one_account Sample.parseFloat Sample.db).
  vm_compute. reflexivity.
Defined.

Lemma snd_updateMT5Account uid accountId updates db :
  snd (updateMT5Account uid accountId updates db)
  = snd (run (update_mt5_accounts uid accountId updates) db).
Proof.
  unfold updateMT5Account. by destruct (run _ db) as [[n|e] db'].
Qed.

Lemma apply_updates_twice updates r :
  apply_updates updates (apply_updates updates r) = apply_updates updates r.
Proof.
  destruct updates as [[?|] [?|] [?|] [?|] [?|] [?|] [?|] [?|] [?|]]; reflexivity.
Qed.

(** X18. An administrator saves the same change of a Trading Account
    twice, the change assigning neither [id] nor [user_id] (as all the
    controls of the Admin page do). The second save leaves every column of
    every row as the first save left it, except [updated_at]: the trigger
    sets it on the updated row to the time of the second save, and leaves
    it alone on the rows with another id. *)
Theorem update_twice_changes_only_updated_at (parseFloat : string → option Z)
    (db : Database) (uid : option UUID) (accountId : UUID)
    (updates : PartialMT5Account.t) :
  PartialMT5Account.id updates = None →
  PartialMT5Account.user_id updates = None →
  let once := step parseFloat db (UpdateAccount uid accountId updates) in
  step parseFloat once (UpdateAccount uid accountId updates) = once
  ∧ ∀ (now : Z) (updated_at : list Z) (i : nat) (r : MT5Account.row) (t : Z),
      mt5_accounts db !! i = Some r →
      updated_at !! i = Some t →
      (MT5Account.id r = accountId →
       has_role db uid admin = true →
       in_decimal_10_2 (PartialMT5Account.initial_deposit updates)
       && in_decimal_10_2 (PartialMT5Account.current_balance updates) = true →
       updated_at_after_update now once uid accountId updates updated_at !! i
       = Some now)
      ∧ (MT5Account.id r ≠ accountId →
         updated_at_after_update now once uid accountId updates updated_at !! i
         = Some t).
Proof.
  intros Hid Hown. cbn zeta. cbn [step]. rewrite !snd_updateMT5Account.
  destruct (has_role db uid admin) eqn:Ha.
  2: { rewrite (update_by_non_admin db uid accountId updates Ha).
       split; [by apply update_by_non_admin|].
       intros now updated_at i r t Hr Ht. split; [done|]. intros Hne.
       unfold updated_at_after_update.
       destruct (fst _); [|done].
       rewrite lookup_zip_with, Hr, Ht. cbn.
       by rewrite update_target_admin, Ha, andb_false_r. }
  destruct (in_decimal_10_2 (PartialMT5Account.initial_deposit updates)
            && in_decimal_10_2 (PartialMT5Account.current_balance updates)) eqn:Hfit.
  2: { assert (∀ d, run (update_mt5_accounts uid accountId updates) d
                    = (Err numeric_value_out_of_range, d)) as He.
       { intros d. unfold update_mt5_accounts. tx_unfold. by rewrite Hfit. }
       rewrite !He. cbn [snd]. split; [done|].
       intros now updated_at i r t Hr Ht. split; [done|]. intros _.
       unfold updated_at_after_update. by rewrite He. }
  destruct (update_by_admin db uid accountId updates Ha Hid Hown Hfit) as [-> _].
  set (once := set_mt5_accounts
                 (map (λ r, if bool_decide (MT5Account.id r = accountId)
                            then apply_updates updates r else r)
                      (mt5_accounts db)) db).
  assert (Ha1 : has_role once uid admin = true) by exact Ha.
  destruct (update_by_admin once uid accountId updates Ha1 Hid Hown Hfit)
    as [Hdb [n Hn]].
  split.
  - rewrite Hdb. unfold once, set_mt5_accounts.
    cbn [auth_users profiles mt5_accounts user_roles admin_settings]. f_equal.
    rewrite map_map. apply map_ext. intros r.
    destruct (bool_decide (MT5Account.id r = accountId)) eqn:Hr.
    + rewrite apply_updates_keeps_id by done. rewrite Hr. apply apply_updates_twice.
    + by rewrite Hr.
  - intros now updated_at i r t Hr Ht.
    unfold updated_at_after_update. rewrite Hn.
    rewrite lookup_zip_with.
    change (mt5_accounts once)
      with ((λ r, if bool_decide (MT5Account.id r = accountId)
                  then apply_updates updates r else r) <$> mt5_accounts db).
    rewrite list_lookup_fmap, Hr, Ht. cbn -[update_target].
    rewrite update_target_admin, Ha1, andb_true_r. split.
    + intros He _ _. rewrite (bool_decide_eq_true_2 (MT5Account.id r = accountId)) by done.
      rewrite apply_updates_keeps_id by done. by rewrite bool_decide_eq_true_2.
    + intros Hne. rewrite (bool_decide_eq_false_2 (MT5Account.id r = accountId)) by done.
      by rewrite bool_decide_eq_false_2.
Qed.

Lemma update_twice_changes_only_updated_at_witness :
  let once := step Sample.parseFloat Sample.db
                (UpdateAccount (Some Sample.root) "acc-2" (Sample.set_flag_target true)) in
  step Sample.parseFloat once
    (UpdateAccount (Some Sample.root) "acc-2" (Sample.set_flag_target true))
  = once
  ∧ updated_at_after_update 2000 once (Some Sample.root) "acc-2"
      (Sample.set_flag_target true) [1000; 1500] !! 1%nat = Some 2000
  ∧ updated_at_after_update 2000 once (Some Sample.root) "acc-2"
      (Sample.set_flag_target true) [1000; 1500] !! 0%nat = Some 1000.
Proof.
  destruct (update_twice_changes_only_updated_at Sample.parseFloat Sample.db
              (Some Sample.root) "acc-2" (Sample.set_flag_target true)
              eq_refl eq_refl) as [Honce Hat].
  split; [exact Honce|]. split.
  - apply (Hat 2000 [1000; 1500] 1%nat Sample.account_bob 1500);
      reflexivity.
  - apply (Hat 2000 [1000; 1500] 0%nat Sample.account_alice 1000);
      [reflexivity | reflexivity | discriminate].
Defined.

(** ** Nothing is deleted *)

Lemma step_append_only parseFloat db req :
  auth_users db `prefix_of` auth_users (step parseFloat db req)
  ∧ profiles db `prefix_of` profiles (step parseFloat db req)
  ∧ user_roles db `prefix_of` user_roles (step parseFloat db req)
  ∧ (length (mt5_accounts db) ≤ length (mt5_accounts (step parseFloat db req)))%nat.
Proof.
  destruct (step_has_effect parseFloat db req)
    as [req|NEW pid rid Hf|u gen_id form d Hp Hd Hu|uid accountId updates Ha
       |uid id gen_id form l]; cbn.
  - done.
  - repeat split; try apply prefix_app_r; done.
  - repeat split; try done. rewrite length_app. lia.
  - repeat split; try done. by rewrite length_map.
  - done.
Qed.

(** X19. No request removes or rewrites registration data or deletes a
    Trading Account: along every sequence of requests the identities, the
    Profiles and the Role Assignments present at the start remain, in
    place and unchanged, as the first rows of their tables, and the number
    of Trading Accounts never goes down. *)
Theorem store_is_append_only (parseFloat : string → option Z) (reqs : list request) :
  ∀ db : Database,
    auth_users db `prefix_of` auth_users (steps parseFloat db reqs)
    ∧ profiles db `prefix_of` profiles (steps parseFloat db reqs)
    ∧ user_roles db `prefix_of` user_roles (steps parseFloat db reqs)
    ∧ (length (mt5_accounts db)
       ≤ length (mt5_accounts (steps parseFloat db reqs)))%nat.
Proof.
  induction reqs as [|req rest IH]; intros db; [done|].
  cbn [steps fold_left]. fold (steps parseFloat (step parseFloat db req) rest).
  destruct (step_append_only parseFloat db req) as (H1 & H2 & H3 & H4).
  destruct (IH (step parseFloat db req)) as (I1 & I2 & I3 & I4).
  repeat split; [by etrans | by etrans | by etrans | lia].
Qed.

(** ** A submission and the submitter's Dashboard *)

(** X20. A caller without the admin role who submits a Trading Account
    successfully gets it stored under its own identity, and yet its
    Dashboard lists no account afterwards: the policies give owners no
    read access to their rows. *)
Theorem submitted_account_not_on_own_dashboard (parseFloat : string → option Z)
    (u : UUID) (gen_id : UUID) (form : formData) (db db' : Database) :
  has_role db (Some u) admin = false →
  handleSubmit parseFloat (Some u) gen_id form db = (onAccountAdded, db') →
  (∃ r, last (mt5_accounts db') = Some r
        ∧ MT5Account.id r = gen_id ∧ MT5Account.user_id r = u)
  ∧ Dashboard_mt5Accounts (Some u) db' = []
  ∧ Dashboard_badges (Some u) db' = [].
Proof.
  intros Ha Hs.
  destruct (handleSubmit_cases parseFloat (Some u) gen_id form db)
    as [[_ Hn]|(d & Hp & Hd & He & _)].
  { by rewrite Hs in Hn. }
  rewrite Hs in He. injection He as ->. split.
  - eexists. cbn [mt5_accounts set_mt5_accounts]. rewrite last_snoc. done.
  - apply Dashboard_of_non_admin_is_empty. exact Ha.
Qed.

Lemma submitted_account_not_on_own_dashboard_witness :
  (∃ r, last (mt5_accounts
                (snd (handleSubmit Sample.parseFloat (Some Sample.alice) "acc-3"
                        (mkFormData "123" "pw" "Demo" "1000") Sample.db)))
        = Some r
        ∧ MT5Account.id r = "acc-3" ∧ MT5Account.user_id r = Sample.alice)
  ∧ Dashboard_mt5Accounts (Some Sample.alice)
      (snd (handleSubmit Sample.parseFloat (Some Sample.alice) "acc-3"
              (mkFormData "123" "pw" "Demo" "1000") Sample.db))
    = []
  ∧ Dashboard_badges (Some Sample.alice)
      (snd (handleSubmit Sample.parseFloat (Some Sample.alice) "acc-3"
              (mkFormData "123" "pw" "Demo" "1000") Sample.db))
    = [].
Proof.
  apply (submitted_account_not_on_own_dashboard Sample.parseFloat Sample.alice "acc-3"
           (mkFormData "123" "pw" "Demo" "1000") Sample.db);
    vm_compute; reflexivity.
Defined.

(** ** What a caller without the admin role can change *)

(** X21. A request that no administrator issues changes the store in
    at most two ways: a registration adds the new identity with its
    Profile and its role, and a submission of the account form appends one
    Trading Account owned by the caller; every other such request leaves
    the store as it is. Registration is the only request that writes
    without a session: a submission, an update, a settings save or a read
    sent without one changes nothing. *)
Theorem non_admin_can_only_add_own_account (parseFloat : string → option Z)
    (db : Database) (req : request) :
  (∀ uid, request_caller req = Some uid → has_role db uid admin = false) →
  (step parseFloat db req = db
   ∨ (∃ NEW profile_id role_id,
        req = SignUp NEW profile_id role_id
        ∧ registration_keys_free db NEW profile_id role_id = true
        ∧ step parseFloat db req = after_registration db NEW profile_id role_id)
   ∨ (∃ u gen_id form d,
        req = SubmitAccount (Some u) gen_id form
        ∧ parseFloat (initialDeposit form) = Some d
        ∧ step parseFloat db req
          = set_mt5_accounts (mt5_accounts db ++ [submitted_row u gen_id form d]) db))
  ∧ (request_caller req = Some None → step parseFloat db req = db).
Proof.
  intros Hna.
  assert (Hmain :
    step parseFloat db req = db
    ∨ (∃ NEW profile_id role_id,
         req = SignUp NEW profile_id role_id
         ∧ registration_keys_free db NEW profile_id role_id = true
         ∧ step parseFloat db req = after_registration db NEW profile_id role_id)
    ∨ (∃ u gen_id form d,
         req = SubmitAccount (Some u) gen_id form
         ∧ parseFloat (initialDeposit form) = Some d
         ∧ step parseFloat db req
           = set_mt5_accounts (mt5_accounts db ++ [submitted_row u gen_id form d]) db)).
  { destruct req as [NEW pid rid|u gen_id form|uid accountId updates
                    |uid id gen_id form|uid|uid]; cbn [step].
    - destruct (registration_keys_free db NEW pid rid) eqn:Hf.
      + right. left. exists NEW, pid, rid. by rewrite insert_auth_user_ok.
      + left. by destruct (insert_auth_user_err _ _ _ _ Hf) as [e ->].
    - destruct (handleSubmit_cases parseFloat u gen_id form db)
        as [[-> _]|(d & Hp & Hd & -> & Hu)]; [by left|].
      destruct (Hu (Hna u eq_refl)) as [owner ->].
      right. right. by exists owner, gen_id, form, d.
    - left. rewrite snd_updateMT5Account. apply update_by_non_admin.
      by apply Hna.
    - left. rewrite settings_write_needs_admin_aux; [done|]. by apply Hna.
    - by left.
    - by left. }
  split; [exact Hmain|].
  intros Hc. destruct Hmain as [?|[(NEW & pid & rid & -> & _)|(u & g & f & d & -> & _)]];
    [done | done | done].
Qed.

Lemma non_admin_can_only_add_own_account_witness :
  (step Sample.parseFloat Sample.db
     (SignUp (AuthUser.mk "carol" None) "p-9" "r-9") = Sample.db
   ∨ (∃ NEW profile_id role_id,
        SignUp (AuthUser.mk "carol" None) "p-9" "r-9" = SignUp NEW profile_id role_id
        ∧ registration_keys_free Sample.db NEW profile_id role_id = true
        ∧ step Sample.parseFloat Sample.db
            (SignUp (AuthUser.mk "carol" None) "p-9" "r-9")
          = after_registration Sample.db NEW profile_id role_id)
   ∨ (∃ u gen_id form d,
        SignUp (AuthUser.mk "carol" None) "p-9" "r-9" = SubmitAccount (Some u) gen_id form
        ∧ Sample.parseFloat (initialDeposit form) = Some d
        ∧ step Sample.parseFloat Sample.db
            (SignUp (AuthUser.mk "carol" None) "p-9" "r-9")
          = set_mt5_accounts
              (mt5_accounts Sample.db ++ [submitted_row u gen_id form d]) Sample.db))
  ∧ step Sample.parseFloat Sample.db
      (UpdateSettings None (Some "s-1") "s-2"
         (mkSettingsForm "https://example.org" "TXYZ" "bot"))
    = Sample.db.
Proof.
  split.
  - apply (non_admin_can_only_add_own_account Sample.parseFloat Sample.db
             (SignUp (AuthUser.mk "carol" None) "p-9" "r-9")).
    intros uid Hc. discriminate Hc.
  - apply (non_admin_can_only_add_own_account Sample.parseFloat Sample.db
             (UpdateSettings None (Some "s-1") "s-2"
                (mkSettingsForm "https://example.org" "TXYZ" "bot"))).
    + intros uid [= <-]. reflexivity.
    + reflexivity.
Defined.


(** ** Registering twice *)

(** X22. Once an identity is registered, a second registration under
    the same id fails on the primary key and changes nothing, whatever
    metadata and row ids it brings: the identity keeps its one Profile. *)
Theorem second_registration_changes_nothing (db : Database) (NEW NEW' : AuthUser.row)
    (profile_id role_id profile_id' role_id' : UUID) :
  registration_keys_free db NEW profile_id role_id = true →
  AuthUser.id NEW' = AuthUser.id NEW →
  run (insert_auth_user NEW' profile_id' role_id')
      (snd (run (insert_auth_user NEW profile_id role_id) db))
  = (Err unique_violation, snd (run (insert_auth_user NEW profile_id role_id) db)).
Proof.
  intros Hfree Hid. rewrite (insert_auth_user_ok db NEW profile_id role_id Hfree).
  cbn [snd]. unfold insert_auth_user. tx_unfold.
  cbn [auth_users after_registration]. by rewrite Hid, key_in_last.
Qed.

Lemma second_registration_changes_nothing_witness :
  run (insert_auth_user (AuthUser.mk Sample.bob (Some Sample.jane_meta)) "p-2" "r-2")
      (snd (run (insert_auth_user (AuthUser.mk Sample.bob None) "p-1" "r-1")
                (initial_database "s-1")))
  = (Err unique_violation,
     snd (run (insert_auth_user (AuthUser.mk Sample.bob None) "p-1" "r-1")
              (initial_database "s-1"))).
Proof.
  apply (second_registration_changes_nothing (initial_database "s-1")
           (AuthUser.mk Sample.bob None) (AuthUser.mk Sample.bob (Some Sample.jane_meta))
           "p-1" "r-1" "p-2" "r-2"); reflexivity.
Defined.
